(** * PinataService: workspace snapshots on a content-addressed store

    A shallow embedding of [PinataService] (services/ipfs/PinataService.ts)
    and of the two command handlers of [extension.ts] that drive it
    ([PluginIPFSCommit] and [PluginIPFSSync]), followed by the summary
    helpers of [extension.ts] and by [EnvConfig].

    The TypeScript code is asynchronous but sequential: every host call is
    awaited before the next statement runs.  It is modelled in a small
    monad that threads the mutable state (the fields of the service
    instance, the editor settings and the file system), raises and catches
    JavaScript exceptions, and records every interaction with the outside
    world in a chronological trace.  The behaviour of the outside world
    (the pinning service, the host API, I/O failures) is a record of
    oracles, the [Env].

    Taken as given: [findFiles] and the dynamic imports of the service
    modules resolve; debug output written with [console.log] is not
    recorded; an error interpolated into a message is rendered as its
    message text. *)

From Stdlib Require Import ZArith Lia List Ascii String.
From stdpp Require Import gmap strings list fin_maps pretty.

(** ** JavaScript values *)

(** The values a decoded JSON document can hold, plus [undefined] for a
    property that is absent.  Numbers are restricted to integers and
    strings are byte strings. *)
#[warnings="-register-all"]
Inductive JSON : Type :=
| JUndefined
| JNull
| JBool (b : bool)
| JNum (n : Z)
| JStr (s : string)
| JArr (items : list JSON)
| JObj (props : list (string * JSON)).

(** [!!v] in JavaScript. *)
Definition js_truthy (v : JSON) : bool :=
  match v with
  | JUndefined | JNull => false
  | JBool b => b
  | JNum n => negb (n =? 0)%Z
  | JStr s => negb (String.eqb s "")
  | JArr _ | JObj _ => true
  end.

(** Truthiness of a [string | undefined] value such as the result of
    [config.get<string>(key)] or [process.env.NAME]. *)
Definition str_truthy (o : option string) : bool :=
  match o with
  | Some s => negb (String.eqb s "")
  | None => false
  end.

(** [a || b] on strings. *)
Definition str_or (a : option string) (b : string) : string :=
  match a with
  | Some s => if String.eqb s "" then b else s
  | None => b
  end.

(** ** Plain objects used as dictionaries

    The own properties are kept in creation order; writing an existing
    key keeps its position. *)
Section JSObject.
Context {V : Type}.

(** Creates or updates the own property [k]. *)
Fixpoint obj_set (k : string) (v : V) (o : list (string * V)) : list (string * V) :=
  match o with
  | [] => [(k, v)]
  | (k', v') :: o' =>
      if String.eqb k' k then (k', v) :: o' else (k', v') :: obj_set k v o'
  end.

(** The assignment [obj[k] = v] on an object made by a literal [{}].
    The key [__proto__] is the accessor that [Object.prototype] defines:
    assigning to it creates no own property (a string is ignored by the
    setter).  Every other key creates or updates an own property. *)
Definition obj_assign (k : string) (v : V) (o : list (string * V)) : list (string * V) :=
  if String.eqb k "__proto__" then o else obj_set k v o.

Fixpoint obj_get (k : string) (o : list (string * V)) : option V :=
  match o with
  | [] => None
  | (k', v') :: o' => if String.eqb k' k then Some v' else obj_get k o'
  end.

Definition Object_keys (o : list (string * V)) : list string := map fst o.

(** Own-property enumeration order: array indices first, ascending,
    then the other keys in creation order. *)
Definition digit_of (c : ascii) : option N :=
  let n := N_of_ascii c in
  if ((48 <=? n) && (n <=? 57))%N then Some (n - 48)%N else None.

Fixpoint parse_digits (s : string) (acc : N) : option N :=
  match s with
  | EmptyString => Some acc
  | String c s' =>
      match digit_of c with
      | Some d => parse_digits s' (10 * acc + d)%N
      | None => None
      end
  end.

Definition array_index (s : string) : option N :=
  match s with
  | EmptyString => None
  | String c EmptyString => digit_of c
  | String c _ =>
      if Ascii.eqb c "0" then None
      else match parse_digits s 0 with
           | Some n => if (n <? 4294967295)%N then Some n else None
           | None => None
           end
  end.

Fixpoint insert_by_index (e : N * (string * V)) (l : list (N * (string * V)))
  : list (N * (string * V)) :=
  match l with
  | [] => [e]
  | e' :: l' => if (fst e <? fst e')%N then e :: l else e' :: insert_by_index e l'
  end.

Definition index_entries (o : list (string * V)) : list (N * (string * V)) :=
  omap (fun kv => match array_index (fst kv) with
                  | Some n => Some (n, kv)
                  | None => None
                  end) o.

Definition Object_entries (o : list (string * V)) : list (string * V) :=
  map snd (foldr insert_by_index [] (index_entries o))
  ++ filter (fun kv => array_index (fst kv) = None) o.
End JSObject.

(** Property read [v.k]; [None] stands for the [TypeError] raised when [v]
    is [null] or [undefined]. *)
Definition js_prop (v : JSON) (k : string) : option JSON :=
  match v with
  | JUndefined | JNull => None
  | JObj props => Some (default JUndefined (obj_get k props))
  | _ => Some JUndefined
  end.

(** ** The data model of the service *)

Record WorkspaceState : Type := {
  version : string;
  timestamp : string;
  ws_workspaceId : string;
  apiConfiguration : JSON;
  clineMessages : JSON;
  currentTask : JSON;
  autoApprovalSettings : JSON;
  browserSettings : JSON;
  files : list (string * string);
  folders : list string
}.

Record PinataConfig : Type := {
  jwt : string;
  gateway : option string
}.

(** What [JSON.stringify] writes into the uploaded blob, as the document a
    later [gateways.get] decodes. *)
Definition JSON_stringify (w : WorkspaceState) : JSON :=
  JObj [ ("version", JStr (version w));
         ("timestamp", JStr (timestamp w));
         ("workspaceId", JStr (ws_workspaceId w));
         ("apiConfiguration", apiConfiguration w);
         ("clineMessages", clineMessages w);
         ("currentTask", currentTask w);
         ("autoApprovalSettings", autoApprovalSettings w);
         ("browserSettings", browserSettings w);
         ("files", JObj (map (fun kv => (fst kv, JStr (snd kv))) (Object_entries (files w))));
         ("folders", JArr (map JStr (folders w))) ].

(** The file handed to [pinata.upload.file] with its metadata. *)
Record UploadRequest : Type := {
  up_name : string;
  up_body : JSON;
  up_metaName : string;
  up_workspaceId : string;
  up_version : string;
  up_timestamp : string;
  up_userEmail : string
}.

(** ** The outside world *)

Inductive FileType : Type := FT_Unknown | FT_File | FT_Directory | FT_SymbolicLink.

Inductive FsNode : Type :=
| File (bytes : string)
| Directory
| SymbolicLink
| Unknown.

Inductive IoOp : Type := OpStat | OpRead | OpWrite | OpMkdir.

Record WorkspaceFolder : Type := {
  wf_name : string;
  wf_uri : string
}.

(** Oracles for everything the service does not decide itself. *)
Record Env : Type := {
  (** [process.env] *)
  process_env : gmap string string;
  (** [vscode.workspace.workspaceFolders] ([[]] when undefined) *)
  workspaceFolders : list WorkspaceFolder;
  (** [vscode.workspace.findFiles] for every entry below the folder,
      [node_modules] excluded, in the order the host returns the URIs *)
  findFiles : WorkspaceFolder -> list string;
  (** [vscode.workspace.asRelativePath] *)
  asRelativePath : string -> string;
  (** [vscode.Uri.joinPath] *)
  joinPath : string -> string -> string;
  (** [Buffer.from(bytes).toString('utf8')] *)
  utf8_toString : string -> string;
  (** [Buffer.from(v, 'utf8')] for an array or an object [v]: the bytes
      of the buffer, [None] when the call raises *)
  buffer_from_value : JSON -> option string;
  (** whether a file-system call on a URI is rejected by the host *)
  io_denied : IoOp -> string -> bool;
  (** [new Date().toISOString()] *)
  now : string;
  (** the getters of the optional extension state provider; [JUndefined]
      when the optional chain yields nothing *)
  getApiConfiguration : JSON;
  getClineMessages : JSON;
  getCurrentTask : JSON;
  getAutoApprovalSettings : JSON;
  getBrowserSettings : JSON;
  (** [pinata.testAuthentication()] succeeds for these credentials *)
  testAuthentication : PinataConfig -> bool;
  (** [pinata.upload.file]: the [IpfsHash] of the result, [None] when the
      call rejects *)
  upload_file : UploadRequest -> option string;
  (** [pinata.unpin([cid])] resolves *)
  unpin : string -> bool;
  (** [pinata.gateways.get(cid)]: the [data] field of the response, [None]
      when the call rejects *)
  gateways_get : string -> option JSON;
  (** [config.update(key, _, ConfigurationTarget.Workspace)] resolves *)
  config_update_ok : string -> bool;
  (** what the user types into the CID input box ([None]: dismissed) *)
  showInputBox : option string
}.

(** The mutable state: the fields of one [PinataService] instance, the
    editor settings (full keys, e.g. [cline.pinata.jwt]) and the files on
    disk, by URI. *)
Record State : Type := {
  pinata : option PinataConfig;
  workspaceId : string;
  currentCID : option string;
  settings : gmap string string;
  fs : gmap string FsNode
}.

Inductive Level : Type := Info | Warn | Error.

(** What a run leaves behind, in the order it happened. *)
Inductive Event : Type :=
| EvTestAuthentication (c : PinataConfig) (ok : bool)
| EvUnpin (cid : string) (ok : bool)
| EvUpload (req : UploadRequest) (res : option string)
| EvGatewayGet (cid : string) (res : option JSON)
| EvConfigUpdate (key value : string) (ok : bool)
| EvCreateDirectory (uri : string) (ok : bool)
| EvWriteFile (uri content : string) (ok : bool)
| EvConsole (l : Level) (msg : string)
| EvShowMessage (l : Level) (msg : string).

(** ** The monad: state, exceptions, trace *)

Inductive Outcome (A : Type) : Type :=
| Ok (a : A)
| Throw (msg : string).
Arguments Ok {A} a.
Arguments Throw {A} msg.

Record Result (A : Type) : Type := mkResult {
  outcome : Outcome A;
  final : State;
  trace : list Event
}.
Arguments mkResult {A} _ _ _.
Arguments outcome {A} _.
Arguments final {A} _.
Arguments trace {A} _.

Definition M (A : Type) : Type := State -> Result A.

Definition ret {A} (a : A) : M A := fun s => mkResult (Ok a) s [].

(** Put the events of an earlier step in front of a result. *)
Definition prepend {A} (tr : list Event) (r : Result A) : Result A :=
  match r with
  | mkResult o s tr' => mkResult o s (tr ++ tr')
  end.

Definition bind {A B} (m : M A) (k : A -> M B) : M B :=
  fun s =>
    match m s with
    | mkResult (Ok a) s' tr => prepend tr (k a s')
    | mkResult (Throw e) s' tr => mkResult (Throw e) s' tr
    end.

Definition throw {A} (msg : string) : M A := fun s => mkResult (Throw msg) s [].

(** [try { m } catch (error) { h error }]: the state changes made before
    the exception stay. *)
Definition try_catch {A} (m : M A) (h : string -> M A) : M A :=
  fun s =>
    match m s with
    | mkResult (Ok a) s' tr => mkResult (Ok a) s' tr
    | mkResult (Throw e) s' tr => prepend tr (h e s')
    end.

Definition gets {A} (f : State -> A) : M A := fun s => mkResult (Ok (f s)) s [].
Definition modify (f : State -> State) : M unit := fun s => mkResult (Ok tt) (f s) [].
Definition emit (e : Event) : M unit := fun s => mkResult (Ok tt) s [e].

Declare Scope js_scope.
Delimit Scope js_scope with js.
Notation "x <- c1 ;; c2" := (bind c1 (fun x => c2))
  (at level 100, c1 at next level, c2 at level 200, right associativity) : js_scope.
Notation "c1 ;; c2" := (bind c1 (fun _ => c2))
  (at level 100, c2 at level 200, right associativity) : js_scope.
Local Open Scope js_scope.

(** [for (const x of xs) { body }] with an accumulator for the locals the
    body mutates. *)
Fixpoint for_of {A B} (xs : list A) (body : B -> A -> M B) (acc : B) : M B :=
  match xs with
  | [] => ret acc
  | x :: xs' => acc' <- body acc x ;; for_of xs' body acc'
  end.

Definition console (l : Level) (msg : string) : M unit := emit (EvConsole l msg).
Definition showMessage (l : Level) (msg : string) : M unit := emit (EvShowMessage l msg).

(** ** Host primitives *)

Section Service.
Context (env : Env).

(** [vscode.workspace.fs.stat] *)
Definition fs_stat (uri : string) : M FileType :=
  fun s =>
    if io_denied env OpStat uri then throw ("stat failed: " +:+ uri) s
    else match fs s !! uri with
         | Some (File _) => ret FT_File s
         | Some Directory => ret FT_Directory s
         | Some SymbolicLink => ret FT_SymbolicLink s
         | Some Unknown => ret FT_Unknown s
         | None => throw ("FileNotFound: " +:+ uri) s
         end.

(** [vscode.workspace.fs.readFile] *)
Definition fs_readFile (uri : string) : M string :=
  fun s =>
    if io_denied env OpRead uri then throw ("readFile failed: " +:+ uri) s
    else match fs s !! uri with
         | Some (File bytes) => ret bytes s
         | Some _ => throw ("FileIsADirectory: " +:+ uri) s
         | None => throw ("FileNotFound: " +:+ uri) s
         end.

Definition set_fs (f : gmap string FsNode) (s : State) : State :=
  {| pinata := pinata s; workspaceId := workspaceId s; currentCID := currentCID s;
     settings := settings s; fs := f |}.

Definition set_settings (c : gmap string string) (s : State) : State :=
  {| pinata := pinata s; workspaceId := workspaceId s; currentCID := currentCID s;
     settings := c; fs := fs s |}.

Definition set_currentCID (c : option string) (s : State) : State :=
  {| pinata := pinata s; workspaceId := workspaceId s; currentCID := c;
     settings := settings s; fs := fs s |}.

Definition set_pinata (p : option PinataConfig) (s : State) : State :=
  {| pinata := p; workspaceId := workspaceId s; currentCID := currentCID s;
     settings := settings s; fs := fs s |}.

(** [vscode.workspace.fs.createDirectory]: an existing directory is fine,
    an existing file is not. *)
Definition fs_createDirectory (uri : string) : M unit :=
  fun s =>
    if io_denied env OpMkdir uri
    then (emit (EvCreateDirectory uri false) ;; throw ("createDirectory failed: " +:+ uri)) s
    else match fs s !! uri with
         | Some (File _) | Some SymbolicLink | Some Unknown =>
             (emit (EvCreateDirectory uri false) ;; throw ("FileExists: " +:+ uri)) s
         | Some Directory | None =>
             (emit (EvCreateDirectory uri true) ;;
              modify (fun s => set_fs (<[uri := Directory]> (fs s)) s)) s
         end.

(** [vscode.workspace.fs.writeFile]: overwrites. *)
Definition fs_writeFile (uri : string) (bytes : string) : M unit :=
  if io_denied env OpWrite uri
  then emit (EvWriteFile uri bytes false) ;; throw ("writeFile failed: " +:+ uri)
  else emit (EvWriteFile uri bytes true) ;;
       modify (fun s => set_fs (<[uri := File bytes]> (fs s)) s).

(** [vscode.workspace.getConfiguration("cline").update(key, value,
    ConfigurationTarget.Workspace)] *)
Definition config_update (key value : string) : M unit :=
  if config_update_ok env key
  then emit (EvConfigUpdate key value true) ;;
       modify (fun s => set_settings (<[key := value]> (settings s)) s)
  else emit (EvConfigUpdate key value false) ;;
       throw ("Unable to write to Workspace Settings: " +:+ key).

Definition pinata_testAuthentication (c : PinataConfig) : M unit :=
  emit (EvTestAuthentication c (testAuthentication env c)) ;;
  if testAuthentication env c then ret tt else throw "Authentication failed".

Definition pinata_unpin (cid : string) : M unit :=
  emit (EvUnpin cid (unpin env cid)) ;;
  if unpin env cid then ret tt else throw ("unpin failed: " +:+ cid).

Definition pinata_upload_file (req : UploadRequest) : M string :=
  emit (EvUpload req (upload_file env req)) ;;
  match upload_file env req with
  | Some hash => ret hash
  | None => throw "upload failed"
  end.

Definition pinata_gateways_get (cid : string) : M JSON :=
  emit (EvGatewayGet cid (gateways_get env cid)) ;;
  match gateways_get env cid with
  | Some data => ret data
  | None => throw ("gateway request failed: " +:+ cid)
  end.

(** *** PinataService *)

(** The token bundled with the source as its development fallback.  Only
    its header segment is reproduced; what matters below is that it is
    a non-empty string. *)
Definition DEV_FALLBACK_JWT : string :=
  "eyJhbGciOiJIUzI1NiIsInR5cCI6IkpXVCJ9.<payload>.<signature>".

Definition DEFAULT_GATEWAY : string := "gateway.pinata.cloud".

(** [constructor(workspaceId)] *)
Definition new_PinataService (id : string) : M unit :=
  modify (fun s => {| pinata := None; workspaceId := id; currentCID := None;
                      settings := settings s; fs := fs s |}).

(** [initialize(config)]: the SDK handle is stored before the connection
    test. *)
Definition initialize (config : PinataConfig) : M bool :=
  try_catch
    (modify (set_pinata
               (Some {| jwt := jwt config;
                        gateway := Some (str_or (gateway config) DEFAULT_GATEWAY) |})) ;;
     pinata_testAuthentication config ;;
     ret true)
    (fun error =>
       console Error ("Failed to initialize Pinata: " +:+ error) ;;
       showMessage Error ("Failed to connect to Pinata: " +:+ error) ;;
       ret false).

(** [getPinataConfig()]: settings, then environment, then the bundled
    token. *)
Definition getPinataConfig (cfg : gmap string string) : option PinataConfig :=
  let jwt0 := cfg !! "cline.pinata.jwt" in
  let gateway0 := cfg !! "cline.pinata.gateway" in
  let jwt1 := if negb (str_truthy jwt0) then process_env env !! "PINATA_JWT" else jwt0 in
  let gateway1 :=
    if negb (str_truthy gateway0)
    then Some (str_or (process_env env !! "PINATA_GATEWAY") DEFAULT_GATEWAY)
    else gateway0 in
  let jwt2 := if negb (str_truthy jwt1) then Some DEV_FALLBACK_JWT else jwt1 in
  match jwt2 with
  | Some j =>
      if String.eqb j "" then None
      else Some {| jwt := j; gateway := Some (str_or gateway1 DEFAULT_GATEWAY) |}
  | None => None
  end.

(** [ensureInitialized()] *)
Definition ensureInitialized : M bool :=
  p <- gets pinata ;;
  match p with
  | Some _ => ret true
  | None =>
      cfg <- gets settings ;;
      match getPinataConfig cfg with
      | None =>
          showMessage Warn "Pinata IPFS not configured. Please set your Pinata JWT in settings." ;;
          ret false
      | Some config => initialize config
      end
  end.

(** [String.prototype.includes] for a one-character needle. *)
Fixpoint includes (content : string) (c : ascii) : bool :=
  match content with
  | EmptyString => false
  | String a rest => Ascii.eqb a c || includes rest c
  end.

(** [isTextFile(content)] *)
Definition isTextFile (content : string) : bool :=
  negb (includes content Ascii.zero).

(** The file cap of [uris.slice(0, 100)]. *)
Definition FILE_CAP : nat := 100.

(** The body of the loop over the sliced URIs; the accumulator holds the
    locals [files] and [folders].  The only mutation of the [try] block
    is its last statement, so the handler sees them unchanged. *)
Definition scanUri (acc : list (string * string) * list string) (uri : string)
  : M (list (string * string) * list string) :=
  try_catch
    (t <- fs_stat uri ;;
     match t with
     | FT_File =>
         content <- fs_readFile uri ;;
         let text := utf8_toString env content in
         if isTextFile text
         then ret (obj_assign (asRelativePath env uri) text (fst acc), snd acc)
         else ret acc
     | FT_Directory =>
         ret (fst acc, snd acc ++ [asRelativePath env uri])
     | _ => ret acc
     end)
    (fun error =>
       console Warn ("Could not read file " +:+ uri +:+ ": " +:+ error) ;;
       ret acc).

Definition scanFolder (acc : list (string * string) * list string) (wf : WorkspaceFolder)
  : M (list (string * string) * list string) :=
  for_of (take FILE_CAP (findFiles env wf)) scanUri acc.

Definition js_or (v dflt : JSON) : JSON := if js_truthy v then v else dflt.

(** [serializeWorkspaceState()] *)
Definition serializeWorkspaceState : M WorkspaceState :=
  acc <- for_of (workspaceFolders env) scanFolder ([], []) ;;
  id <- gets workspaceId ;;
  ret {| version := "1.0.0";
         timestamp := now env;
         ws_workspaceId := id;
         apiConfiguration := js_or (getApiConfiguration env) (JObj []);
         clineMessages := js_or (getClineMessages env) (JArr []);
         currentTask := js_or (getCurrentTask env) JNull;
         autoApprovalSettings := js_or (getAutoApprovalSettings env) (JObj []);
         browserSettings := js_or (getBrowserSettings env) (JObj []);
         files := fst acc;
         folders := snd acc |}.

Definition UNKNOWN_EMAIL : string := "unknown@example.com".

(** [UserProfileService.getUserProfile()?.email] *)
Definition getUserProfile_email (cfg : gmap string string) : option string :=
  let email := cfg !! "cline.mcxProtocol.email" in
  if negb (str_truthy email) then None else email.

(** [UserProfileService.sendIPFSCommitNotification]: a stub that only
    writes debug output. *)
Definition sendIPFSCommitNotification (email cid kind : string) : M unit := ret tt.

Definition POINTER_KEY : string := "cline.workspace.ipfsCID".

(** [commitToIPFS()].  Debug output ([console.log]) is left out. *)
Definition commitToIPFS : M (option string) :=
  ok <- ensureInitialized ;;
  if negb ok then
    console Error "Failed to initialize Pinata" ;;
    ret None
  else
    try_catch
      (workspaceState <- serializeWorkspaceState ;;
       let jsonData := JSON_stringify workspaceState in
       id <- gets workspaceId ;;
       cur <- gets currentCID ;;
       match (if str_truthy cur then cur else None) with
       | Some old =>
           showMessage Info "Updating workspace state on IPFS..." ;;
           try_catch
             (pinata_unpin old)
             (fun error => console Warn ("Could not unpin old CID: " +:+ error))
       | None =>
           showMessage Info "Creating new workspace state on IPFS..."
       end ;;
       cfg <- gets settings ;;
       let userEmail := str_or (getUserProfile_email cfg) UNKNOWN_EMAIL in
       result <- pinata_upload_file
                   {| up_name := "workspace-" +:+ id +:+ ".json";
                      up_body := jsonData;
                      up_metaName := "Cline Workspace " +:+ id;
                      up_workspaceId := id;
                      up_version := version workspaceState;
                      up_timestamp := timestamp workspaceState;
                      up_userEmail := userEmail |} ;;
       modify (set_currentCID (Some result)) ;;
       config_update POINTER_KEY result ;;
       showMessage Info ("Workspace committed to IPFS: " +:+ result) ;;
       try_catch
         (if negb (String.eqb userEmail "") && negb (String.eqb userEmail UNKNOWN_EMAIL)
             && negb (String.eqb result "")
          then sendIPFSCommitNotification userEmail result "Workspace Commit"
          else ret tt)
         (fun error =>
            console Warn ("Failed to send IPFS commit email notification: " +:+ error)) ;;
       gets currentCID)
      (fun error =>
         console Error ("Failed to commit to IPFS: " +:+ error) ;;
         showMessage Error ("Failed to commit to IPFS: " +:+ error) ;;
         ret None).

(** [loadFromIPFS(cid)]: the decoded document is returned as it came; the
    cast to [WorkspaceState] checks nothing. *)
Definition loadFromIPFS (cid : string) : M (option JSON) :=
  ok <- ensureInitialized ;;
  if negb ok then ret None
  else
    try_catch
      (showMessage Info "Loading workspace state from IPFS..." ;;
       workspaceState <- pinata_gateways_get cid ;;
       match js_prop workspaceState "version", js_prop workspaceState "workspaceId" with
       | Some v, Some w =>
           if negb (js_truthy v) || negb (js_truthy w)
           then throw "Invalid workspace state format"
           else
             modify (set_currentCID (Some cid)) ;;
             config_update POINTER_KEY cid ;;
             showMessage Info ("Workspace state loaded from IPFS: " +:+ cid) ;;
             ret (Some workspaceState)
       | _, _ => throw "TypeError: Cannot read properties of null"
       end)
      (fun error =>
         console Error ("Failed to load from IPFS: " +:+ error) ;;
         showMessage Error ("Failed to load from IPFS: " +:+ error) ;;
         ret None).

(** [for (const x of v)]: arrays and strings are iterable. *)
Definition js_iterate (v : JSON) : M (list JSON) :=
  match v with
  | JArr items => ret items
  | JStr s => ret (map (fun c => JStr (String c EmptyString)) (list_ascii_of_string s))
  | _ => throw "TypeError: value is not iterable"
  end.

(** [Object.entries(v)] *)
Definition js_Object_entries (v : JSON) : M (list (string * JSON)) :=
  match v with
  | JUndefined | JNull => throw "TypeError: Cannot convert undefined or null to object"
  | JObj props => ret (Object_entries props)
  | JArr items => ret (imap (fun i x => (pretty i, x)) items)
  | JStr s =>
      ret (imap (fun i c => (pretty i, JStr (String c EmptyString))) (list_ascii_of_string s))
  | JBool _ | JNum _ => ret []
  end.

Definition js_get (v : JSON) (k : string) : M JSON :=
  match js_prop v k with
  | Some x => ret x
  | None => throw "TypeError: Cannot read properties of null"
  end.

(** [vscode.Uri.joinPath(base, segment)] with a segment read from the
    document: only strings are path segments. *)
Definition Uri_joinPath (base : string) (segment : JSON) : M string :=
  match segment with
  | JStr p => ret (joinPath env base p)
  | _ => throw "TypeError: path segment must be a string"
  end.

(** [Buffer.from(content, 'utf8')].  A string is encoded; an array or an
    object is converted as [Buffer.from] does for array-like values, or
    raises; [undefined], [null], booleans and numbers raise. *)
Definition Buffer_from (content : JSON) : M string :=
  match content with
  | JStr text => ret text
  | JArr _ | JObj _ =>
      match buffer_from_value env content with
      | Some bytes => ret bytes
      | None => throw "TypeError: the first argument must be of type string"
      end
  | _ => throw "TypeError: the first argument must be of type string"
  end.

(** The body of the loop over [workspaceState.folders]. *)
Definition createFolder (workspaceUri : string) (_ : unit) (folder : JSON) : M unit :=
  folderUri <- Uri_joinPath workspaceUri folder ;;
  try_catch (fs_createDirectory folderUri) (fun _ => ret tt).

(** The body of the loop over the entries of [workspaceState.files]. *)
Definition restoreFile (workspaceUri : string) (_ : unit) (entry : string * JSON) : M unit :=
  let fileUri := joinPath env workspaceUri (fst entry) in
  let parentUri := joinPath env fileUri ".." in
  try_catch (fs_createDirectory parentUri) (fun _ => ret tt) ;;
  contentBytes <- Buffer_from (snd entry) ;;
  fs_writeFile fileUri contentBytes.

(** [syncFromIPFS(workspaceState)] *)
Definition syncFromIPFS (workspaceState : JSON) : M bool :=
  try_catch
    (showMessage Info "Syncing workspace from IPFS..." ;;
     match workspaceFolders env with
     | wf :: _ =>
         let workspaceUri := wf_uri wf in
         foldersV <- js_get workspaceState "folders" ;;
         folderList <- js_iterate foldersV ;;
         for_of folderList (createFolder workspaceUri) tt ;;
         filesV <- js_get workspaceState "files" ;;
         entries <- js_Object_entries filesV ;;
         for_of entries (restoreFile workspaceUri) tt
     | [] => ret tt
     end ;;
     showMessage Info "Workspace synced successfully from IPFS!" ;;
     ret true)
    (fun error =>
       console Error ("Failed to sync from IPFS: " +:+ error) ;;
       showMessage Error ("Failed to sync from IPFS: " +:+ error) ;;
       ret false).

(** [getCurrentCID()] *)
Definition getCurrentCID (s : State) : option string :=
  if str_truthy (currentCID s) then currentCID s
  else let stored := settings s !! POINTER_KEY in
       if str_truthy stored then stored else None.

(** [setCurrentCID(cid)] *)
Definition setCurrentCID (cid : string) : M unit :=
  modify (set_currentCID (Some cid)).

(** *** The command handlers of extension.ts *)

(** The credential lookup both handlers repeat before calling the
    service. *)
Definition handler_jwt (cfg : gmap string string) : option string :=
  let jwt0 := cfg !! "cline.pinata.jwt" in
  let jwt1 := if negb (str_truthy jwt0) then process_env env !! "PINATA_JWT" else jwt0 in
  if negb (str_truthy jwt1) then Some DEV_FALLBACK_JWT else jwt1.

Definition NOT_CONFIGURED : string :=
  "Pinata IPFS not configured. Please set your Pinata JWT token in settings or environment variables.".

(** The handler registered for [commands.PluginIPFSCommit]. *)
Definition PluginIPFSCommit : M unit :=
  try_catch
    (showMessage Info "Starting IPFS commit..." ;;
     match workspaceFolders env with
     | [] => throw "No workspace folder found"
     | wf :: _ =>
         new_PinataService (wf_name wf) ;;
         cfg <- gets settings ;;
         if negb (str_truthy (handler_jwt cfg)) then
           showMessage Warn NOT_CONFIGURED
         else
           cid <- commitToIPFS ;;
           if str_truthy cid then ret tt
           else throw "Failed to commit workspace to IPFS"
     end)
    (fun error =>
       console Error ("Error during IPFS commit: " +:+ error) ;;
       showMessage Error ("IPFS Commit Failed: " +:+ error)).

(** The handler registered for [commands.PluginIPFSSync]. *)
Definition PluginIPFSSync : M unit :=
  try_catch
    (match workspaceFolders env with
     | [] => throw "No workspace folder found"
     | wf :: _ =>
         new_PinataService (wf_name wf) ;;
         cfg <- gets settings ;;
         if negb (str_truthy (handler_jwt cfg)) then
           showMessage Warn NOT_CONFIGURED
         else if negb (str_truthy (showInputBox env)) then ret tt
         else
           let cid := default "" (showInputBox env) in
           workspaceState <- loadFromIPFS cid ;;
           match workspaceState with
           | Some w =>
               if negb (js_truthy w) then throw "Failed to load workspace state from IPFS"
               else syncFromIPFS w ;; ret tt
           | None => throw "Failed to load workspace state from IPFS"
           end
     end)
    (fun error =>
       console Error ("Error during IPFS sync: " +:+ error) ;;
       showMessage Error ("IPFS Sync Failed: " +:+ error)).

End Service.

(** ** Closed forms

    What the scan and the commit compute, written without the monad; the
    lemmas below show that the monadic programs agree with them. *)

Inductive Scanned : Type :=
| ScText (text : string)
| ScBinary
| ScFolder
| ScSkipped
| ScError (msg : string).

Section ClosedForms.
Context (env : Env).

(** What the loop body finds at one URI. *)
Definition classify (s : State) (uri : string) : Scanned :=
  if io_denied env OpStat uri then ScError ("stat failed: " +:+ uri)
  else match fs s !! uri with
       | None => ScError ("FileNotFound: " +:+ uri)
       | Some (File bytes) =>
           if io_denied env OpRead uri then ScError ("readFile failed: " +:+ uri)
           else if isTextFile (utf8_toString env bytes)
                then ScText (utf8_toString env bytes)
                else ScBinary
       | Some Directory => ScFolder
       | Some SymbolicLink | Some Unknown => ScSkipped
       end.

Definition scanStep (s : State) (acc : list (string * string) * list string) (uri : string)
  : list (string * string) * list string :=
  match classify s uri with
  | ScText text => (obj_assign (asRelativePath env uri) text (fst acc), snd acc)
  | ScFolder => (fst acc, snd acc ++ [asRelativePath env uri])
  | _ => acc
  end.

Definition scanLog (s : State) (uri : string) : list Event :=
  match classify s uri with
  | ScError msg => [EvConsole Warn ("Could not read file " +:+ uri +:+ ": " +:+ msg)]
  | _ => []
  end.

(** The URIs the scan visits: the first [FILE_CAP] of every folder. *)
Definition scanned_uris : list string :=
  flat_map (fun wf => take FILE_CAP (findFiles env wf)) (workspaceFolders env).

Definition snapshot_of (s : State) : WorkspaceState :=
  let acc := fold_left (scanStep s) scanned_uris ([], []) in
  {| version := "1.0.0";
     timestamp := now env;
     ws_workspaceId := workspaceId s;
     apiConfiguration := js_or (getApiConfiguration env) (JObj []);
     clineMessages := js_or (getClineMessages env) (JArr []);
     currentTask := js_or (getCurrentTask env) JNull;
     autoApprovalSettings := js_or (getAutoApprovalSettings env) (JObj []);
     browserSettings := js_or (getBrowserSettings env) (JObj []);
     files := fst acc;
     folders := snd acc |}.

(** The upload a commit started in [s] asks for. *)
Definition commit_request (s : State) : UploadRequest :=
  {| up_name := "workspace-" +:+ workspaceId s +:+ ".json";
     up_body := JSON_stringify (snapshot_of s);
     up_metaName := "Cline Workspace " +:+ workspaceId s;
     up_workspaceId := workspaceId s;
     up_version := "1.0.0";
     up_timestamp := now env;
     up_userEmail := str_or (getUserProfile_email (settings s)) UNKNOWN_EMAIL |}.

(** What the commit does about the previous blob, before it uploads. *)
Definition unpin_log (s : State) : list Event :=
  match (if str_truthy (currentCID s) then currentCID s else None) with
  | Some old =>
      EvShowMessage Info "Updating workspace state on IPFS..."
      :: EvUnpin old (unpin env old)
      :: (if unpin env old then []
          else [EvConsole Warn ("Could not unpin old CID: " +:+ ("unpin failed: " +:+ old))])
  | None => [EvShowMessage Info "Creating new workspace state on IPFS..."]
  end.

Definition commit_failure_log (msg : string) : list Event :=
  [EvConsole Error ("Failed to commit to IPFS: " +:+ msg);
   EvShowMessage Error ("Failed to commit to IPFS: " +:+ msg)].

(** The commit proper, run in [s] once the connection is up. *)
Definition commit_body_result (s : State) : Result (option string) :=
  let req := commit_request s in
  let before := flat_map (scanLog s) scanned_uris ++ unpin_log s in
  match upload_file env req with
  | None =>
      mkResult (Ok None) s
        (before ++ EvUpload req None :: commit_failure_log "upload failed")
  | Some cid =>
      if config_update_ok env POINTER_KEY then
        mkResult (Ok (Some cid))
          (set_settings (<[POINTER_KEY := cid]> (settings s)) (set_currentCID (Some cid) s))
          (before ++ [EvUpload req (Some cid);
                      EvConfigUpdate POINTER_KEY cid true;
                      EvShowMessage Info ("Workspace committed to IPFS: " +:+ cid)])
      else
        mkResult (Ok None) (set_currentCID (Some cid) s)
          (before ++ EvUpload req (Some cid)
                  :: EvConfigUpdate POINTER_KEY cid false
                  :: commit_failure_log
                       ("Unable to write to Workspace Settings: " +:+ POINTER_KEY))
  end.

Definition commit_result (s : State) : Result (option string) :=
  match ensureInitialized env s with
  | mkResult (Ok true) s1 tr0 => prepend tr0 (commit_body_result s1)
  | mkResult (Ok false) s1 tr0 =>
      mkResult (Ok None) s1 (tr0 ++ [EvConsole Error "Failed to initialize Pinata"])
  | mkResult (Throw e) s1 tr0 => mkResult (Throw e) s1 tr0
  end.

(** The events that talk to the pinning service or move the persisted
    pointer, and the events that touch the disk. *)
Definition is_store_event (e : Event) : bool :=
  match e with
  | EvUnpin _ _ | EvUpload _ _ | EvConfigUpdate _ _ _ => true
  | _ => false
  end.

Definition is_fs_event (e : Event) : bool :=
  match e with
  | EvCreateDirectory _ _ | EvWriteFile _ _ _ => true
  | _ => false
  end.

Definition is_write_event (e : Event) : bool :=
  match e with
  | EvWriteFile _ _ _ => true
  | _ => false
  end.

Definition is_unpin_event (e : Event) : bool :=
  match e with
  | EvUnpin _ _ => true
  | _ => false
  end.

Definition load_failure_log (msg : string) : list Event :=
  [EvConsole Error ("Failed to load from IPFS: " +:+ msg);
   EvShowMessage Error ("Failed to load from IPFS: " +:+ msg)].

(** The validation of [loadFromIPFS]: both properties can be read and
    are truthy. *)
Definition passes_validation (doc : JSON) : bool :=
  match js_prop doc "version", js_prop doc "workspaceId" with
  | Some v, Some w => js_truthy v && js_truthy w
  | _, _ => false
  end.

(** The load proper, run in [s] once the connection is up. *)
Definition load_body_result (cid : string) (s : State) : Result (option JSON) :=
  let before := [EvShowMessage Info "Loading workspace state from IPFS...";
                 EvGatewayGet cid (gateways_get env cid)] in
  match gateways_get env cid with
  | None =>
      mkResult (Ok None) s
        (before ++ load_failure_log ("gateway request failed: " +:+ cid))
  | Some doc =>
      match js_prop doc "version", js_prop doc "workspaceId" with
      | Some v, Some w =>
          if negb (js_truthy v) || negb (js_truthy w) then
            mkResult (Ok None) s
              (before ++ load_failure_log "Invalid workspace state format")
          else if config_update_ok env POINTER_KEY then
            mkResult (Ok (Some doc))
              (set_settings (<[POINTER_KEY := cid]> (settings s))
                 (set_currentCID (Some cid) s))
              (before ++ [EvConfigUpdate POINTER_KEY cid true;
                          EvShowMessage Info
                            ("Workspace state loaded from IPFS: " +:+ cid)])
          else
            mkResult (Ok None) (set_currentCID (Some cid) s)
              (before ++ EvConfigUpdate POINTER_KEY cid false
                      :: load_failure_log
                           ("Unable to write to Workspace Settings: " +:+ POINTER_KEY))
      | _, _ =>
          mkResult (Ok None) s
            (before ++ load_failure_log "TypeError: Cannot read properties of null")
      end
  end.

(** The state a command handler starts its service in. *)
Definition fresh_service (wf : WorkspaceFolder) (s : State) : State :=
  {| pinata := None; workspaceId := wf_name wf; currentCID := None;
     settings := settings s; fs := fs s |}.

(** A document entry with text content, and the event of writing it
    below [root]. *)
Definition text_entry (kv : string * string) : string * JSON :=
  (fst kv, JStr (snd kv)).

Definition write_event (root : string) (ok : bool) (kv : string * string) : Event :=
  EvWriteFile (joinPath env root (fst kv)) (snd kv) ok.

Definition write_allowed (root : string) (kv : string * string) : bool :=
  negb (io_denied env OpWrite (joinPath env root (fst kv))).

(** The [files] half of [scanStep]. *)
Definition fileStep (s : State) (f : list (string * string)) (uri : string)
  : list (string * string) :=
  match classify s uri with
  | ScText text => obj_assign (asRelativePath env uri) text f
  | _ => f
  end.

(** An eligible file: a regular file that can be read and decodes to
    text without a null character. *)
Definition is_eligible (s : State) (uri : string) : bool :=
  match classify s uri with
  | ScText _ => true
  | _ => false
  end.


Definition is_unreadable (s : State) (uri : string) : bool :=
  match classify s uri with
  | ScError _ => true
  | _ => false
  end.

Definition skipped_uris (s : State) : list string :=
  List.filter (is_unreadable s) scanned_uris.


Definition has_nul (bytes : string) : Prop :=
  In Ascii.zero (list_ascii_of_string bytes).

(** Two states that differ at most in the SDK handle. *)
Definition same_outside_pinata (s s' : State) : Prop :=
  workspaceId s' = workspaceId s /\ currentCID s' = currentCID s
  /\ settings s' = settings s /\ fs s' = fs s.

(** Events that neither reach the store's data nor the disk. *)
Definition quiet (e : Event) : bool :=
  match e with
  | EvTestAuthentication _ _ | EvConsole _ _ | EvShowMessage _ _ => true
  | _ => false
  end.
End ClosedForms.

(** ** Concrete worlds

    A workspace [/ws] opened as the single folder [ws], used to run the
    definitions above on explicit inputs. *)

Definition ws_folder : WorkspaceFolder := {| wf_name := "ws"; wf_uri := "/ws" |}.

(** [Buffer.from] on an array of numbers: one byte for each number. *)
Definition byte_of (v : JSON) : option ascii :=
  match v with
  | JNum n => Some (ascii_of_N (Z.to_N (n mod 256)))
  | _ => None
  end.

Fixpoint bytes_of (items : list JSON) : option string :=
  match items with
  | [] => Some EmptyString
  | v :: rest =>
      match byte_of v, bytes_of rest with
      | Some b, Some bs => Some (String b bs)
      | _, _ => None
      end
  end.

(** The examples hold arrays of numbers only. *)
Definition bytes_of_numbers (v : JSON) : option string :=
  match v with
  | JArr items => bytes_of items
  | _ => None
  end.

Definition example_env (uris : list string) (denied : IoOp -> string -> bool)
    (up : UploadRequest -> option string) (gw : string -> option JSON)
    (input : option string) : Env :=
  {| process_env := ∅;
     workspaceFolders := [ws_folder];
     findFiles := fun _ => uris;
     asRelativePath := fun uri => String.substring 4 (String.length uri - 4) uri;
     joinPath := fun base p => base +:+ "/" +:+ p;
     utf8_toString := fun bytes => bytes;
     buffer_from_value := bytes_of_numbers;
     io_denied := denied;
     now := "2024-01-01T00:00:00.000Z";
     getApiConfiguration := JUndefined;
     getClineMessages := JUndefined;
     getCurrentTask := JUndefined;
     getAutoApprovalSettings := JUndefined;
     getBrowserSettings := JUndefined;
     testAuthentication := fun _ => true;
     upload_file := up;
     unpin := fun _ => true;
     gateways_get := gw;
     config_update_ok := fun _ => true;
     showInputBox := input |}.

Definition example_state (cur : option string) (cfg : gmap string string)
    (disk : list (string * FsNode)) : State :=
  {| pinata := None; workspaceId := "ws"; currentCID := cur;
     settings := cfg; fs := list_to_map disk |}.

Definition nothing_denied : IoOp -> string -> bool := fun _ _ => false.

(** A store that names a blob after the number of files it holds. *)
Definition counting_store (req : UploadRequest) : option string :=
  match js_prop (up_body req) "files" with
  | Some (JObj props) => Some ("Qm" +:+ pretty (length props))
  | _ => None
  end.

(** A store that rejects every upload. *)
Definition failing_store (req : UploadRequest) : option string := None.

Definition empty_gateway (cid : string) : option JSON := None.

Definition two_files : list (string * FsNode) :=
  [("/ws/a.txt", File "hello"); ("/ws/b.txt", File "world")].

Definition two_uris : list string := ["/ws/a.txt"; "/ws/b.txt"].

(** A workspace that was committed before as [QmOld]. *)
Definition committed_state : State :=
  example_state (Some "QmOld") {[ POINTER_KEY := "QmOld" ]} two_files.

(** The same workspace seen by a service instance that was just built:
    the pointer is in the settings only. *)
Definition persisted_state : State :=
  example_state None {[ POINTER_KEY := "QmOld" ]} two_files.

Definition working_env : Env :=
  example_env two_uris nothing_denied counting_store empty_gateway None.

Definition upload_failure_env : Env :=
  example_env two_uris nothing_denied failing_store empty_gateway None.

(** [n] text files [/ws/f0], [/ws/f1], ... *)
Definition many_uris (n : nat) : list string :=
  map (fun i => "/ws/f" +:+ pretty i) (seq 0 n).




(** The same 150 text files next to one image that the host lists first. *)
Definition image_uri : string := "/ws/0-logo.png".

Definition image_bytes : string := String Ascii.zero "PNG".






Definition fresh_state : State := example_state None ∅ two_files.

(** One text file next to the image. *)
Definition mixed_env : Env :=
  example_env ["/ws/a.txt"; image_uri] nothing_denied counting_store empty_gateway None.

Definition mixed_state : State :=
  example_state None ∅ [("/ws/a.txt", File "hello"); (image_uri, File image_bytes)].

(** A snapshot as the gateway returns it, stored under [QmSnapshot01]. *)
Definition snapshot_with_version (v : JSON) : JSON :=
  JObj [ ("version", v);
         ("timestamp", JStr "2024-01-01T00:00:00.000Z");
         ("workspaceId", JStr "ws");
         ("files", JObj [("a.txt", JStr "hello"); ("b.txt", JStr "world")]);
         ("folders", JArr [JStr "src"]) ].

Definition snapshot_doc : JSON := snapshot_with_version (JStr "1.0.0").

(** The same snapshot with a number where the version string belongs. *)
Definition numeric_version_doc : JSON := snapshot_with_version (JNum 1).

(** The same snapshot with an empty version string. *)
Definition empty_version_doc : JSON := snapshot_with_version (JStr "").

Definition snapshot_cid : string := "QmSnapshot01".

Definition gateway_of (doc : JSON) (cid : string) : option JSON :=
  if String.eqb cid snapshot_cid then Some doc else None.

Definition sync_env (doc : JSON) (denied : IoOp -> string -> bool) : Env :=
  example_env [] denied counting_store (gateway_of doc) (Some snapshot_cid).

(** [/ws/a.txt] cannot be written. *)
Definition a_unwritable : IoOp -> string -> bool :=
  fun op uri => match op with
                | OpWrite => String.eqb uri "/ws/a.txt"
                | _ => false
                end.

Definition snapshot_entries : list (string * string) :=
  [("a.txt", "hello"); ("b.txt", "world")].

(** An empty folder, the pointer still at [QmOld]. *)
Definition empty_root_state : State :=
  example_state (Some "QmOld") {[ POINTER_KEY := "QmOld" ]} [].

(** The order the commit is claimed to follow: no unpin is issued before
    the persisted pointer has moved. *)
Fixpoint unpin_only_after_move (moved : bool) (tr : list Event) : bool :=
  match tr with
  | [] => true
  | EvConfigUpdate _ _ true :: tr' => unpin_only_after_move true tr'
  | EvUnpin _ _ :: tr' => moved && unpin_only_after_move moved tr'
  | _ :: tr' => unpin_only_after_move moved tr'
  end.

(** ** More concrete worlds *)

(** The workspace [/ws] with every oracle chosen by the caller. *)
Definition custom_env (penv : gmap string string) (folders : list WorkspaceFolder)
    (uris : list string) (denied : IoOp -> string -> bool)
    (auth : PinataConfig -> bool) (up : UploadRequest -> option string)
    (unpin_ok : string -> bool) (gw : string -> option JSON)
    (cfg_ok : string -> bool) (input : option string) : Env :=
  {| process_env := penv;
     workspaceFolders := folders;
     findFiles := fun _ => uris;
     asRelativePath := fun uri => String.substring 4 (String.length uri - 4) uri;
     joinPath := fun base p => base +:+ "/" +:+ p;
     utf8_toString := fun bytes => bytes;
     buffer_from_value := bytes_of_numbers;
     io_denied := denied;
     now := "2024-01-01T00:00:00.000Z";
     getApiConfiguration := JUndefined;
     getClineMessages := JUndefined;
     getCurrentTask := JUndefined;
     getAutoApprovalSettings := JUndefined;
     getBrowserSettings := JUndefined;
     testAuthentication := auth;
     upload_file := up;
     unpin := unpin_ok;
     gateways_get := gw;
     config_update_ok := cfg_ok;
     showInputBox := input |}.

(** The pinning service rejects the credentials. *)
Definition rejected_env : Env :=
  custom_env ∅ [ws_folder] two_uris nothing_denied (fun _ => false) counting_store
    (fun _ => true) empty_gateway (fun _ => true) None.

(** The workspace settings cannot be written. *)
Definition readonly_settings_env : Env :=
  custom_env ∅ [ws_folder] two_uris nothing_denied (fun _ => true) counting_store
    (fun _ => true) (gateway_of snapshot_doc) (fun _ => false) (Some snapshot_cid).

(** Unpinning fails. *)
Definition unpin_failure_env : Env :=
  custom_env ∅ [ws_folder] two_uris nothing_denied (fun _ => true) counting_store
    (fun _ => false) empty_gateway (fun _ => true) None.

(** No folder is open. *)
Definition no_folder_env : Env :=
  custom_env ∅ [] [] nothing_denied (fun _ => true) counting_store
    (fun _ => true) (gateway_of snapshot_doc) (fun _ => true) (Some snapshot_cid).

(** A token in the settings and another one in the environment. *)
Definition both_tokens_env : Env :=
  custom_env {[ "PINATA_JWT" := "env-token"; "PINATA_GATEWAY" := "env.gateway" ]}
    [ws_folder] two_uris nothing_denied (fun _ => true) counting_store
    (fun _ => true) empty_gateway (fun _ => true) None.

Definition settings_with_token : gmap string string :=
  {[ "cline.pinata.jwt" := "settings-token" ]}.

(** A URI the scan records as a folder. *)
Definition is_folder (env : Env) (s : State) (uri : string) : bool :=
  match classify env s uri with
  | ScFolder => true
  | _ => false
  end.

Definition is_warning (e : Event) : bool :=
  match e with
  | EvConsole Warn _ => true
  | _ => false
  end.

(** Two folders of a multi-root workspace. *)
Definition second_folder : WorkspaceFolder := {| wf_name := "lib"; wf_uri := "/lib" |}.

Definition two_root_env : Env :=
  custom_env ∅ [ws_folder; second_folder] (many_uris 150) nothing_denied (fun _ => true)
    counting_store (fun _ => true) empty_gateway (fun _ => true) None.

(** A folder, a link and a file that is gone next to [a.txt]. *)
Definition mixed_entries_env : Env :=
  example_env ["/ws/src"; "/ws/a.txt"; "/ws/link"; "/ws/gone.txt"] nothing_denied
    counting_store empty_gateway None.

Definition mixed_entries_state : State :=
  example_state None ∅
    [("/ws/src", Directory); ("/ws/a.txt", File "hello"); ("/ws/link", SymbolicLink)].

(** ** The summary helpers of extension.ts *)

(** A chat message as the helpers read it: [msg.type], [msg.text] and
    [msg.say]; an absent field is [None]. *)
Record ClineMessage : Type := {
  msg_type : string;
  msg_text : option string;
  msg_say : option string
}.

(** [msg.text || msg.say || ''] *)
Definition msg_words (m : ClineMessage) : string :=
  str_or (msg_text m) (str_or (msg_say m) "").

(** [hay.includes(needle)] for a needle of any length. *)
Fixpoint includes_str (needle hay : string) : bool :=
  String.prefix needle hay
  || match hay with
     | EmptyString => false
     | String _ rest => includes_str needle rest
     end.

(** [truncateContent(content, maxLength)] *)
Definition truncateContent (content : string) (maxLength : nat) : string :=
  if String.length content <=? maxLength then content
  else String.substring 0 maxLength content +:+ "...".

(** [set.add(x)] on a [Set<string>] kept in insertion order. *)
Definition Set_add (x : string) (set : list string) : list string :=
  if existsb (String.eqb x) set then set else set ++ [x].

(** [messages.slice(-n)] *)
Definition slice_last {A} (n : nat) (l : list A) : list A :=
  drop (length l - n) l.

Definition TOPIC_LABELS : list string :=
  ["Implementation"; "Bug Fixes"; "Testing"; "Deployment"; "Refactoring";
   "IPFS Integration"; "Pinata Storage"].

Section Summary.
(** [String.prototype.toLowerCase] follows the Unicode case mapping; the
    helpers are defined for any such function. *)
Variable toLowerCase : string -> string.

(** The body of the [forEach] of [extractKeyTopics]. *)
Definition addTopics (topics : list string) (msg : ClineMessage) : list string :=
  let text := msg_words msg in
  let topics :=
    if includes_str "implement" (toLowerCase text)
    then Set_add "Implementation" topics else topics in
  let topics :=
    if includes_str "bug" (toLowerCase text) || includes_str "fix" (toLowerCase text)
    then Set_add "Bug Fixes" topics else topics in
  let topics :=
    if includes_str "test" (toLowerCase text)
    then Set_add "Testing" topics else topics in
  let topics :=
    if includes_str "deploy" (toLowerCase text)
    then Set_add "Deployment" topics else topics in
  let topics :=
    if includes_str "refactor" (toLowerCase text)
    then Set_add "Refactoring" topics else topics in
  let topics :=
    if includes_str "ipfs" (toLowerCase text)
    then Set_add "IPFS Integration" topics else topics in
  if includes_str "pinata" (toLowerCase text)
  then Set_add "Pinata Storage" topics else topics.

(** [extractKeyTopics(messages)] *)
Definition extractKeyTopics (messages : list ClineMessage) : list string :=
  fold_left addTopics messages [].

(** The test of the [forEach] of [extractCodeChanges]. *)
Definition is_code_change (msg : ClineMessage) : bool :=
  String.eqb (msg_type msg) "ask" && str_truthy (msg_text msg)
  && (let text := str_or (msg_text msg) "" in
      includes_str "file" text || includes_str "code" text
      || includes_str "function" text).

(** [extractCodeChanges(messages)] *)
Definition extractCodeChanges (messages : list ClineMessage) : list string :=
  take 5
    (fold_left
       (fun changes msg =>
          if is_code_change msg
          then changes ++ [truncateContent (str_or (msg_text msg) "") 100]
          else changes)
       messages []).

Definition is_decision (msg : ClineMessage) : bool :=
  let text := msg_words msg in
  includes_str "decide" (toLowerCase text)
  || includes_str "choice" (toLowerCase text)
  || includes_str "option" (toLowerCase text).

(** [extractDecisions(messages)] *)
Definition extractDecisions (messages : list ClineMessage) : list string :=
  take 3
    (fold_left
       (fun decisions msg =>
          if is_decision msg
          then decisions ++ [truncateContent (msg_words msg) 100]
          else decisions)
       messages []).

Definition is_next_step (msg : ClineMessage) : bool :=
  let text := msg_words msg in
  includes_str "next" (toLowerCase text)
  || includes_str "todo" (toLowerCase text)
  || includes_str "should" (toLowerCase text).

(** [extractNextSteps(messages)] *)
Definition extractNextSteps (messages : list ClineMessage) : list string :=
  take 3
    (fold_left
       (fun steps msg =>
          if is_next_step msg
          then steps ++ [truncateContent (msg_words msg) 100]
          else steps)
       (slice_last 5 messages) []).
End Summary.

(** Lower-casing of the ASCII letters, the instance used in the examples. *)
Definition ascii_lower (c : ascii) : ascii :=
  let n := nat_of_ascii c in
  if (65 <=? n) && (n <=? 90) then ascii_of_nat (n + 32) else c.

Fixpoint lower (s : string) : string :=
  match s with
  | EmptyString => EmptyString
  | String c rest => String (ascii_lower c) (lower rest)
  end.

Definition ask (text : string) : ClineMessage :=
  {| msg_type := "ask"; msg_text := Some text; msg_say := None |}.

Definition say (kind text : string) : ClineMessage :=
  {| msg_type := "say"; msg_text := Some text; msg_say := Some kind |}.

Definition long_text : string :=
  "Please update the file " +:+ String.concat "" (replicate 100 "x").

Definition five_changes : list ClineMessage :=
  [ask "edit file a"; ask "edit file b"; ask long_text; ask "new function";
   ask "code review"].

Definition chat : list ClineMessage :=
  [say "text" "We should fix the bug NEXT"; ask "TODO: deploy"; ask "plain";
   say "text" "tests pass"; ask "pin it with Pinata"].

(** ** EnvConfig *)

Definition GROQ_API_KEY : string := "GROQ_API_KEY".
Definition GROQ_MODEL_ID : string := "GROQ_MODEL_ID".
Definition DEFAULT_MODEL : string := "llama-3.1-70b-versatile".

(** What [EnvConfig.load] reads from outside: the assignments
    [(key.trim(), cleanValue)] that the lines of [<extensionPath>/.env]
    give, in file order ([None] when the file does not exist or cannot be
    read; the warning of the latter case is left out), and
    [process.env]. *)
Record EnvSource : Type := {
  dotenv : string -> option (list (string * string));
  groq_process_env : gmap string string
}.

(** [obj[key] = value] where [value] may be [undefined]. *)
Definition set_opt (key : string) (value : option string)
    (cfg : gmap string string) : gmap string string :=
  match value with
  | Some v => <[key := v]> cfg
  | None => delete key cfg
  end.

(** [a || b] where both may be [undefined]. *)
Definition opt_or (a b : option string) : option string :=
  if str_truthy a then a else b.

(** [config[key] = value] on the object literal [config]; as for every
    object made by a literal, the key [__proto__] is not stored. *)
Definition config_assign (c : gmap string string) (kv : string * string)
  : gmap string string :=
  if String.eqb (fst kv) "__proto__" then c else <[fst kv := snd kv]> c.

Section EnvConfig.
Variable src : EnvSource.

(** [EnvConfig.load(extensionPath)] on the static field [config]; the
    result is the returned object and the new value of the field. *)
Definition EnvConfig_load (extensionPath : option string)
    (config : option (gmap string string))
  : gmap string string * option (gmap string string) :=
  match config with
  | Some c => (c, Some c)
  | None =>
    let c : gmap string string := ∅ in
    let c :=
      if str_truthy extensionPath then
        match dotenv src (str_or extensionPath "") with
        | Some assignments => fold_left config_assign assignments c
        | None => c
        end
      else c in
    let c := set_opt GROQ_API_KEY
               (opt_or (c !! GROQ_API_KEY) (groq_process_env src !! GROQ_API_KEY)) c in
    let c := <[GROQ_MODEL_ID :=
                 str_or (opt_or (c !! GROQ_MODEL_ID)
                                (groq_process_env src !! GROQ_MODEL_ID))
                        DEFAULT_MODEL]> c in
    (c, Some c)
  end.

Definition NO_GROQ_KEY : string :=
  "GROQ_API_KEY not found in environment variables or .env file. Please check your configuration.".

(** [EnvConfig.getGroqApiKey(extensionPath)]: [inr] is the thrown error. *)
Definition getGroqApiKey (extensionPath : option string)
    (config : option (gmap string string))
  : (string + string) * option (gmap string string) :=
  let '(c, config') := EnvConfig_load extensionPath config in
  if negb (str_truthy (c !! GROQ_API_KEY)) then (inr NO_GROQ_KEY, config')
  else (inl (str_or (c !! GROQ_API_KEY) ""), config').

(** [EnvConfig.getGroqModelId(extensionPath)] *)
Definition getGroqModelId (extensionPath : option string)
    (config : option (gmap string string))
  : string * option (gmap string string) :=
  let '(c, config') := EnvConfig_load extensionPath config in
  (str_or (c !! GROQ_MODEL_ID) DEFAULT_MODEL, config').

(** [EnvConfig.isConfigured(extensionPath)] *)
Definition isConfigured (extensionPath : option string)
    (config : option (gmap string string))
  : bool * option (gmap string string) :=
  let '(c, config') := EnvConfig_load extensionPath config in
  (str_truthy (c !! GROQ_API_KEY), config').
End EnvConfig.

(** [EnvConfig.reset()] *)
Definition EnvConfig_reset (config : option (gmap string string))
  : option (gmap string string) := None.

Definition env_file_source : EnvSource :=
  {| dotenv := fun p =>
       if String.eqb p "/ext" then Some [("GROQ_API_KEY", "gsk_file")] else None;
     groq_process_env := ∅ |}.

Definition process_env_source : EnvSource :=
  {| dotenv := fun _ => None;
     groq_process_env := {[ "GROQ_API_KEY" := "gsk_env" ]} |}.

(** [f] applied to every value of a dictionary. *)
Definition map_values {V W : Type} (f : V -> W) (o : list (string * V))
  : list (string * W) :=
  map (fun kv => (fst kv, f (snd kv))) o.

(** The gateway serves what [working_env] uploads for [fresh_state]. *)
Definition round_trip_env : Env :=
  example_env two_uris nothing_denied counting_store
    (fun cid => if String.eqb cid "Qm2"
                then Some (up_body (commit_request working_env fresh_state))
                else None)
    (Some "Qm2").

(** Two files with the same relative path, a third one of that path that
    is gone, and a text file named [__proto__]. *)
Definition collision_env : Env :=
  example_env ["/ws/a.txt"; "/wt/a.txt"; "/wu/a.txt"; "/ws/__proto__"] nothing_denied
    counting_store empty_gateway None.

Definition collision_state : State :=
  example_state None ∅
    [("/ws/a.txt", File "hello"); ("/wt/a.txt", File "other");
     ("/ws/__proto__", File "text")].

(** A [.env] file whose last [GROQ_API_KEY] line is empty, next to a key
    in [process.env]. *)
Definition emptied_key_source : EnvSource :=
  {| dotenv := fun p =>
       if String.eqb p "/ext"
       then Some [("GROQ_API_KEY", "gsk_file"); ("GROQ_API_KEY", "")]
       else None;
     groq_process_env := {[ "GROQ_API_KEY" := "gsk_env" ]} |}.

(** ** The scan *)

Section ScanFacts.
Context (env : Env).

Lemma scanUri_run acc uri s :
  scanUri env acc uri s = mkResult (Ok (scanStep env s acc uri)) s (scanLog env s uri).
Proof.
  unfold scanUri, scanStep, scanLog, classify, try_catch, bind, fs_stat, fs_readFile.
  destruct (io_denied env OpStat uri); [reflexivity|].
  destruct (fs s !! uri) as [[bytes| | |]|] eqn:Hnode; simpl; try reflexivity.
  destruct (io_denied env OpRead uri); simpl; [reflexivity|].
  rewrite Hnode; simpl.
  destruct (isTextFile (utf8_toString env bytes)); reflexivity.
Qed.

Lemma for_of_scanUri_run uris : forall acc s,
  for_of uris (scanUri env) acc s
  = mkResult (Ok (fold_left (scanStep env s) uris acc)) s (flat_map (scanLog env s) uris).
Proof.
  induction uris as [|u uris IH]; intros acc s; simpl; [reflexivity|].
  unfold bind. rewrite scanUri_run. simpl. rewrite IH. reflexivity.
Qed.

Lemma scanFolder_run acc wf s :
  scanFolder env acc wf s
  = mkResult (Ok (fold_left (scanStep env s) (take FILE_CAP (findFiles env wf)) acc)) s
      (flat_map (scanLog env s) (take FILE_CAP (findFiles env wf))).
Proof. unfold scanFolder. apply for_of_scanUri_run. Qed.

Lemma for_of_scanFolder_run wfs : forall acc s,
  for_of wfs (scanFolder env) acc s
  = mkResult
      (Ok (fold_left (scanStep env s)
             (flat_map (fun wf => take FILE_CAP (findFiles env wf)) wfs) acc))
      s
      (flat_map (scanLog env s)
         (flat_map (fun wf => take FILE_CAP (findFiles env wf)) wfs)).
Proof.
  induction wfs as [|wf wfs IH]; intros acc s; simpl; [reflexivity|].
  unfold bind. rewrite !scanFolder_run. simpl.
  rewrite IH. simpl. rewrite fold_left_app, flat_map_app. reflexivity.
Qed.

Lemma serializeWorkspaceState_run s :
  serializeWorkspaceState env s
  = mkResult (Ok (snapshot_of env s)) s (flat_map (scanLog env s) (scanned_uris env)).
Proof.
  unfold serializeWorkspaceState, bind. rewrite for_of_scanFolder_run. simpl.
  rewrite app_nil_r. reflexivity.
Qed.
End ScanFacts.

(** ** Connecting *)

Section ConnectFacts.
Context (env : Env).

Lemma getPinataConfig_Some cfg : exists c, getPinataConfig env cfg = Some c /\ jwt c <> "".
Proof.
  unfold getPinataConfig.
  destruct (cfg !! "cline.pinata.jwt") as [j|]; simpl;
    [destruct (String.eqb j "") eqn:Hj; simpl; rewrite ?Hj; simpl|];
    try (destruct (process_env env !! "PINATA_JWT") as [k|]; simpl;
         [destruct (String.eqb k "") eqn:Hk; simpl; rewrite ?Hk; simpl|]);
    repeat (match goal with H : String.eqb _ _ = _ |- _ => rewrite H end; simpl);
    (eexists; split; [reflexivity|]; simpl; unfold DEV_FALLBACK_JWT;
     first [discriminate | intros ->; simpl in *; discriminate]).
Qed.

Lemma initialize_run config s :
  exists s' tr,
    initialize env config s = mkResult (Ok (testAuthentication env config)) s' tr
    /\ same_outside_pinata s s'
    /\ Forall (fun e => quiet e = true) tr.
Proof.
  unfold initialize, try_catch, bind, pinata_testAuthentication, bind, emit, modify.
  simpl. destruct (testAuthentication env config); simpl;
    do 2 eexists; (split; [reflexivity|]); split;
    try (repeat split; reflexivity); repeat constructor.
Qed.

Lemma ensureInitialized_run s :
  exists b s' tr,
    ensureInitialized env s = mkResult (Ok b) s' tr
    /\ same_outside_pinata s s'
    /\ Forall (fun e => quiet e = true) tr.
Proof.
  unfold ensureInitialized, bind, gets.
  destruct (pinata s) as [p|]; simpl.
  - exists true, s, []. repeat split; auto.
  - destruct (getPinataConfig_Some (settings s)) as (c & -> & _).
    destruct (initialize_run c s) as (s' & tr & -> & Hs & Ht).
    simpl. eauto 6.
Qed.
End ConnectFacts.

(** ** Commit *)

Section CommitFacts.
Context (env : Env).

Lemma commitToIPFS_run s : commitToIPFS env s = commit_result env s.
Proof.
  unfold commitToIPFS, commit_result. unfold bind at 1.
  destruct (ensureInitialized env s) as [[[|]|e] s1 tr0]; cbn [negb];
    [|reflexivity|reflexivity].
  f_equal.
  unfold commit_body_result.
  unfold try_catch at 1. unfold bind at 1. rewrite serializeWorkspaceState_run.
  unfold bind at 1. cbn [gets prepend].
  unfold bind at 1. cbn [gets prepend].
  unfold unpin_log.
  unfold pinata_unpin, pinata_upload_file, config_update, sendIPFSCommitNotification,
    showMessage, console.
  unfold bind, try_catch, emit, gets, modify, ret, throw.
  destruct (if str_truthy (currentCID s1) then currentCID s1 else None) as [old|];
    [destruct (unpin env old)|]; cbn [prepend app];
    change (upload_file env _) with (upload_file env (commit_request env s1));
    (destruct (upload_file env (commit_request env s1)) as [cid|];
     [destruct (config_update_ok env POINTER_KEY)|]);
    cbn [prepend app];
    repeat match goal with
      | |- context [if ?b then _ else _] => destruct b
      end; cbn [prepend app]; rewrite <- ?app_assoc; reflexivity.
Qed.

Lemma classify_ext s s' uri : fs s' = fs s -> classify env s' uri = classify env s uri.
Proof. intros H. unfold classify. rewrite H. reflexivity. Qed.

Lemma scan_fold_ext s s' uris : forall acc,
  fs s' = fs s ->
  fold_left (scanStep env s') uris acc = fold_left (scanStep env s) uris acc.
Proof.
  induction uris as [|u uris IH]; intros acc H; simpl; [reflexivity|].
  rewrite IH by assumption. unfold scanStep. rewrite (classify_ext s s' u H). reflexivity.
Qed.


Lemma snapshot_of_ext s s' :
  same_outside_pinata s s' -> snapshot_of env s' = snapshot_of env s.
Proof.
  intros (Hw & _ & _ & Hfs). unfold snapshot_of.
  rewrite (scan_fold_ext s s' _ _ Hfs), Hw. reflexivity.
Qed.

Lemma commit_request_ext s s' :
  same_outside_pinata s s' -> commit_request env s' = commit_request env s.
Proof.
  intros H. unfold commit_request. rewrite (snapshot_of_ext s s' H).
  destruct H as (-> & _ & -> & _). reflexivity.
Qed.

Lemma in_scanLog e s uris :
  In e (flat_map (scanLog env s) uris) -> exists msg, e = EvConsole Warn msg.
Proof.
  rewrite in_flat_map. intros (u & _ & H). unfold scanLog in H.
  destruct (classify env s u); simpl in H; try contradiction.
  destruct H as [<-|[]]. eauto.
Qed.

Lemma in_unpin_log e s :
  In e (unpin_log env s) ->
  quiet e = true
  \/ exists old, currentCID s = Some old /\ old <> "" /\ e = EvUnpin old (unpin env old).
Proof.
  unfold unpin_log.
  destruct (currentCID s) as [old|]; simpl.
  - destruct (String.eqb old "") eqn:Hold; simpl.
    + intros [<-|[]]. left. reflexivity.
    + intros [<-|[<-|H]].
      * left. reflexivity.
      * right. exists old. repeat split. intros ->. discriminate.
      * destruct (unpin env old); simpl in H; [contradiction|].
        destruct H as [<-|[]]. left. reflexivity.
  - intros [<-|[]]. left. reflexivity.
Qed.

(** Every run of [commitToIPFS] first connects, and then is one of the
    three runs of the commit proper. *)
Lemma commit_cases s :
  exists b s1 tr0,
    ensureInitialized env s = mkResult (Ok b) s1 tr0
    /\ same_outside_pinata s s1
    /\ Forall (fun e => quiet e = true) tr0
    /\ commitToIPFS env s
       = if b then prepend tr0 (commit_body_result env s1)
         else mkResult (Ok None) s1 (tr0 ++ [EvConsole Error "Failed to initialize Pinata"]).
Proof.
  destruct (ensureInitialized_run env s) as (b & s1 & tr0 & Hrun & Hs & Hq).
  exists b, s1, tr0. repeat split; try assumption; try apply Hs.
  rewrite commitToIPFS_run. unfold commit_result. rewrite Hrun.
  destruct b; reflexivity.
Qed.
Lemma in_commit_trace e s tr0 tail :
  Forall (fun e => quiet e = true) tr0 ->
  In e (tr0 ++ (flat_map (scanLog env s) (scanned_uris env) ++ unpin_log env s) ++ tail) ->
  quiet e = true
  \/ (exists old, currentCID s = Some old /\ old <> "" /\ e = EvUnpin old (unpin env old))
  \/ In e tail.
Proof.
  intros Hq. rewrite !in_app_iff. intros [H|[[H|H]|H]].
  - left. exact (proj1 (List.Forall_forall _ _) Hq _ H).
  - apply in_scanLog in H as (msg & ->). left. reflexivity.
  - apply in_unpin_log in H as [H|H]; [left; assumption|].
    right. left. assumption.
  - right. right. assumption.
Qed.

Lemma filter_quiet tr :
  Forall (fun e => quiet e = true) tr -> List.filter is_store_event tr = [].
Proof.
  induction 1 as [|e tr He _ IH]; simpl; [reflexivity|].
  rewrite IH. destruct e; simpl in *; try reflexivity; discriminate.
Qed.

Lemma filter_scanLog s uris :
  List.filter is_store_event (flat_map (scanLog env s) uris) = [].
Proof.
  apply filter_quiet, List.Forall_forall. intros e H.
  apply in_scanLog in H as (msg & ->). reflexivity.
Qed.

Lemma filter_unpin_log s :
  List.filter is_store_event (unpin_log env s)
  = match (if str_truthy (currentCID s) then currentCID s else None) with
    | Some old => [EvUnpin old (unpin env old)]
    | None => []
    end.
Proof.
  unfold unpin_log.
  destruct (if str_truthy (currentCID s) then currentCID s else None) as [old|];
    [destruct (unpin env old)|]; reflexivity.
Qed.

(** C1.  Commit is atomic with respect to the pointer.  If the upload of
    a commit fails, the commit returns [null] and both the in-memory
    current CID and the settings (hence the persisted pointer) are what
    they were before the attempt.  Moreover a commit either leaves both
    untouched or has a successful upload in its trace, whose CID is the
    new in-memory pointer. *)
Theorem commit_upload_failure_keeps_pointer s :
  (forall req, In (EvUpload req None) (trace (commitToIPFS env s)) ->
     outcome (commitToIPFS env s) = Ok None
     /\ currentCID (final (commitToIPFS env s)) = currentCID s
     /\ settings (final (commitToIPFS env s)) = settings s)
  /\ ((currentCID (final (commitToIPFS env s)) = currentCID s
       /\ settings (final (commitToIPFS env s)) = settings s)
      \/ exists req cid,
           In (EvUpload req (Some cid)) (trace (commitToIPFS env s))
           /\ currentCID (final (commitToIPFS env s)) = Some cid).
Proof.
  destruct (commit_cases s) as (b & s1 & tr0 & _ & (_ & Hc & Hs & _) & Hq & ->).
  destruct b; [|simpl; auto].
  unfold commit_body_result.
  destruct (upload_file env (commit_request env s1)) as [cid|];
    [destruct (config_update_ok env POINTER_KEY)|]; cbn [prepend outcome final trace].
  - split.
    + intros req H. exfalso.
      apply (in_commit_trace _ _ _ _ Hq) in H as [H|[(old & _ & _ & H)|H]];
        try discriminate.
      simpl in H. destruct H as [H|[H|[H|[]]]]; discriminate.
    + right. exists (commit_request env s1), cid. split; [|reflexivity].
      rewrite !in_app_iff. right. right. left. reflexivity.
  - split.
    + intros req H. exfalso.
      apply (in_commit_trace _ _ _ _ Hq) in H as [H|[(old & _ & _ & H)|H]];
        try discriminate.
      simpl in H. destruct H as [H|[H|[H|[H|[]]]]]; discriminate.
    + right. exists (commit_request env s1), cid. split; [|reflexivity].
      rewrite !in_app_iff. right. right. left. reflexivity.
  - split; auto.
Qed.

Lemma commit_store_log s old :
  outcome (ensureInitialized env s) = Ok true ->
  currentCID s = Some old -> old <> "" ->
  List.filter is_store_event (trace (commitToIPFS env s))
  = EvUnpin old (unpin env old)
    :: EvUpload (commit_request env s) (upload_file env (commit_request env s))
    :: match upload_file env (commit_request env s) with
       | Some cid => [EvConfigUpdate POINTER_KEY cid (config_update_ok env POINTER_KEY)]
       | None => []
       end.
Proof.
  intros Hinit Hcur Hold.
  destruct (commit_cases s) as (b & s1 & tr0 & Hrun & Hsame & Hq & ->).
  rewrite Hrun in Hinit. injection Hinit as ->.
  rewrite <- (commit_request_ext s s1 Hsame).
  destruct Hsame as (_ & Hc & _ & _).
  unfold commit_body_result.
  destruct (upload_file env (commit_request env s1)) as [cid|];
    [destruct (config_update_ok env POINTER_KEY)|]; cbn [prepend trace];
    rewrite !List.filter_app, (filter_quiet _ Hq), filter_scanLog, filter_unpin_log;
    rewrite Hc, Hcur; simpl;
    (destruct (String.eqb old "") eqn:E; [apply String.eqb_eq in E; contradiction|]);
    reflexivity.
Qed.

(** C2, as the code has it.  On a connected service whose in-memory
    current CID is [old], the commit talks to the store in this order:
    the best-effort unpin of [old] comes first, then the upload, and the
    persisted pointer is written last, only when the upload returned a
    CID. *)
Theorem commit_store_order s old :
  outcome (ensureInitialized env s) = Ok true ->
  currentCID s = Some old -> old <> "" ->
  List.filter is_store_event (trace (commitToIPFS env s))
  = EvUnpin old (unpin env old)
    :: EvUpload (commit_request env s) (upload_file env (commit_request env s))
    :: match upload_file env (commit_request env s) with
       | Some cid => [EvConfigUpdate POINTER_KEY cid (config_update_ok env POINTER_KEY)]
       | None => []
       end.
Proof. exact (commit_store_log s old). Qed.
End CommitFacts.

Lemma commit_upload_failure_keeps_pointer_witness :
  outcome (commitToIPFS upload_failure_env committed_state) = Ok None
  /\ currentCID (final (commitToIPFS upload_failure_env committed_state))
     = currentCID committed_state
  /\ settings (final (commitToIPFS upload_failure_env committed_state))
     = settings committed_state.
Proof.
  apply (proj1 (commit_upload_failure_keeps_pointer upload_failure_env committed_state)
           (commit_request upload_failure_env committed_state)).
  vm_compute. do 3 right. left. reflexivity.
Defined.

(** C2, as claimed: the unpin would only follow the pointer move.  In this
    run the store sees the unpin of [QmOld] before the upload, and the
    pointer is written after both. *)
Lemma commit_unpins_before_upload :
  List.filter is_store_event (trace (commitToIPFS working_env committed_state))
  = [EvUnpin "QmOld" true;
     EvUpload (commit_request working_env committed_state) (Some "Qm2");
     EvConfigUpdate POINTER_KEY "Qm2" true]
  /\ unpin_only_after_move false (trace (commitToIPFS working_env committed_state)) = false.
Proof. split; vm_compute; reflexivity. Qed.

Lemma commit_store_order_witness :
  List.filter is_store_event (trace (commitToIPFS working_env committed_state))
  = EvUnpin "QmOld" (unpin working_env "QmOld")
    :: EvUpload (commit_request working_env committed_state)
         (upload_file working_env (commit_request working_env committed_state))
    :: match upload_file working_env (commit_request working_env committed_state) with
       | Some cid =>
           [EvConfigUpdate POINTER_KEY cid (config_update_ok working_env POINTER_KEY)]
       | None => []
       end.
Proof.
  apply (commit_store_order working_env committed_state "QmOld").
  - vm_compute. reflexivity.
  - reflexivity.
  - discriminate.
Defined.

(** ** Dictionaries *)

Section ObjFacts.
Context {V : Type}.
Implicit Types (o : list (string * V)).

Lemma obj_set_in k v k' v' o :
  In (k, v) (obj_set k' v' o) -> (k = k' /\ v = v') \/ In (k, v) o.
Proof.
  induction o as [|[k0 v0] o IH]; simpl.
  - intros [H|[]]. injection H as <- <-. auto.
  - destruct (String.eqb k0 k') eqn:E; simpl.
    + apply String.eqb_eq in E. subst k0.
      intros [H|H]; [injection H as <- <-; auto | auto].
    + intros [H|H]; [auto|]. destruct (IH H); auto.
Qed.

Lemma obj_set_keys_old k v o :
  In k (Object_keys o) -> Object_keys (obj_set k v o) = Object_keys o.
Proof.
  unfold Object_keys.
  induction o as [|[k0 v0] o IH]; simpl; [tauto|].
  destruct (String.eqb k0 k) eqn:E; simpl; [reflexivity|].
  apply String.eqb_neq in E. intros [H|H]; [congruence|]. rewrite IH; auto.
Qed.

Lemma obj_set_keys_new k v o :
  ~ In k (Object_keys o) -> Object_keys (obj_set k v o) = Object_keys o ++ [k].
Proof.
  unfold Object_keys.
  induction o as [|[k0 v0] o IH]; simpl; [reflexivity|].
  intros H. destruct (String.eqb k0 k) eqn:E; simpl.
  - apply String.eqb_eq in E. tauto.
  - rewrite IH; tauto.
Qed.

Lemma obj_set_length_le k v o : length (obj_set k v o) <= S (length o).
Proof.
  induction o as [|[k0 v0] o IH]; simpl; [lia|].
  destruct (String.eqb k0 k); simpl; lia.
Qed.


Lemma obj_assign_in k v k' v' o :
  In (k, v) (obj_assign k' v' o) -> (k = k' /\ v = v') \/ In (k, v) o.
Proof.
  unfold obj_assign. destruct (String.eqb k' "__proto__"); [auto|apply obj_set_in].
Qed.

Lemma obj_assign_length_le k v o : length (obj_assign k v o) <= S (length o).
Proof.
  unfold obj_assign. destruct (String.eqb k "__proto__"); [lia|apply obj_set_length_le].
Qed.

Lemma obj_assign_stored k v o :
  String.eqb k "__proto__" = false -> obj_assign k v o = obj_set k v o.
Proof. unfold obj_assign. intros ->. reflexivity. Qed.

End ObjFacts.

(** ** What the snapshot holds *)

Section SerializeFacts.
Context (env : Env).


Lemma scan_fold_files s uris : forall acc,
  fst (fold_left (scanStep env s) uris acc) = fold_left (fileStep env s) uris (fst acc).
Proof.
  induction uris as [|u uris IH]; intros acc; simpl; [reflexivity|].
  rewrite IH. f_equal. unfold scanStep, fileStep.
  destruct (classify env s u); reflexivity.
Qed.

Lemma includes_In content c :
  includes content c = true <-> In c (list_ascii_of_string content).
Proof.
  induction content as [|a rest IH]; simpl; [intuition discriminate|].
  rewrite orb_true_iff, IH, Ascii.eqb_eq. tauto.
Qed.

Lemma isTextFile_spec content :
  isTextFile content = true <-> ~ In Ascii.zero (list_ascii_of_string content).
Proof.
  unfold isTextFile. rewrite negb_true_iff, <- includes_In.
  destruct (includes content Ascii.zero); intuition congruence.
Qed.

Lemma classify_text s u text :
  classify env s u = ScText text ->
  io_denied env OpStat u = false /\ io_denied env OpRead u = false
  /\ isTextFile text = true
  /\ exists bytes, fs s !! u = Some (File bytes) /\ text = utf8_toString env bytes.
Proof.
  unfold classify.
  destruct (io_denied env OpStat u); [discriminate|].
  destruct (fs s !! u) as [[bytes| | |]|]; try discriminate.
  destruct (io_denied env OpRead u); [discriminate|].
  destruct (isTextFile (utf8_toString env bytes)) eqn:E; [|discriminate].
  intros H. injection H as <-. eauto 10.
Qed.

Lemma files_fold_origin s uris : forall f k v,
  In (k, v) (fold_left (fileStep env s) uris f) ->
  In (k, v) f
  \/ exists u, In u uris /\ asRelativePath env u = k /\ classify env s u = ScText v.
Proof.
  induction uris as [|u uris IH]; intros f k v; simpl; [auto|].
  intros H. apply IH in H as [H|(u' & Hin & Hk & Hc)]; [|right; eauto].
  unfold fileStep in H. destruct (classify env s u) eqn:E; auto.
  apply obj_assign_in in H as [[-> ->]|H]; [right; eauto|auto].
Qed.






(** C7.  Serialization always returns a snapshot in which no stored
    value contains a null character and every key is the relative path
    of a scanned file whose decoded content is the stored value.  A
    file whose bytes contain a null byte is left out: when decoding
    keeps null bytes and no other scanned URI shares its relative path,
    that path is not a key of [files]. *)
Theorem binary_files_excluded s :
  exists ws,
    outcome (serializeWorkspaceState env s) = Ok ws
    /\ (forall k v, In (k, v) (files ws) ->
          ~ has_nul v
          /\ exists u bytes,
               In u (scanned_uris env) /\ asRelativePath env u = k
               /\ fs s !! u = Some (File bytes) /\ v = utf8_toString env bytes)
    /\ (forall u bytes,
          fs s !! u = Some (File bytes) ->
          has_nul bytes ->
          (forall b, has_nul b -> has_nul (utf8_toString env b)) ->
          (forall u', In u' (scanned_uris env) ->
                      asRelativePath env u' = asRelativePath env u -> u' = u) ->
          ~ In (asRelativePath env u) (Object_keys (files ws))).
Proof.
  rewrite serializeWorkspaceState_run. eexists. split; [reflexivity|].
  unfold snapshot_of. cbn [files]. rewrite scan_fold_files. cbn [fst].
  assert (Horigin : forall k v,
            In (k, v) (fold_left (fileStep env s) (scanned_uris env) []) ->
            exists u, In u (scanned_uris env) /\ asRelativePath env u = k
                      /\ classify env s u = ScText v).
  { intros k v H. apply files_fold_origin in H as [[]|H]. exact H. }
  split.
  - intros k v H. apply Horigin in H as (u & Hin & Hk & Hc).
    apply classify_text in Hc as (_ & _ & Htext & bytes & Hfs & ->).
    split; [apply isTextFile_spec, Htext|]. eauto 10.
  - intros u bytes Hfs Hnul Hdec Hinj Hkey.
    unfold Object_keys in Hkey. apply in_map_iff in Hkey as ([k v] & Hk & Hin).
    simpl in Hk. subst k.
    apply Horigin in Hin as (u' & Hin' & Hk' & Hc).
    apply Hinj in Hk'; [|assumption]. subst u'.
    apply classify_text in Hc as (_ & _ & Htext & bytes' & Hfs' & ->).
    rewrite Hfs in Hfs'. injection Hfs' as <-.
    apply isTextFile_spec in Htext. apply Htext, Hdec, Hnul.
Qed.
End SerializeFacts.





Lemma binary_files_excluded_witness :
  exists ws,
    outcome (serializeWorkspaceState mixed_env mixed_state) = Ok ws
    /\ ~ In (asRelativePath mixed_env image_uri) (Object_keys (files ws)).
Proof.
  destruct (binary_files_excluded mixed_env mixed_state) as (ws & Hrun & _ & Hbin).
  exists ws. split; [exact Hrun|].
  apply (Hbin image_uri image_bytes).
  - vm_compute. reflexivity.
  - left. reflexivity.
  - intros b Hb. exact Hb.
  - intros u' Hin. vm_compute in Hin.
    destruct Hin as [<-|[<-|[]]]; [vm_compute; discriminate | reflexivity].
Defined.

(** ** The command handlers *)

Section HandlerFacts.
Context (env : Env).

Lemma handler_jwt_truthy cfg : str_truthy (handler_jwt env cfg) = true.
Proof.
  unfold handler_jwt.
  destruct (cfg !! "cline.pinata.jwt") as [j|]; simpl;
    [destruct (String.eqb j "") eqn:Hj; simpl; rewrite ?Hj; simpl|];
    try (destruct (process_env env !! "PINATA_JWT") as [k|]; simpl;
         [destruct (String.eqb k "") eqn:Hk; simpl; rewrite ?Hk; simpl|]);
    repeat (match goal with H : String.eqb _ _ = _ |- _ => rewrite H end; simpl);
    reflexivity.
Qed.

(** The service instance a handler builds. *)
Lemma commit_unpin_inv s cid ok :
  In (EvUnpin cid ok) (trace (commitToIPFS env s)) ->
  currentCID s = Some cid /\ cid <> "".
Proof.
  destruct (commit_cases env s) as (b & s1 & tr0 & _ & (_ & Hc & _ & _) & Hq & ->).
  destruct b.
  - unfold commit_body_result.
    destruct (upload_file env (commit_request env s1)) as [c|];
      [destruct (config_update_ok env POINTER_KEY)|]; cbn [prepend trace];
      intros H;
      apply (in_commit_trace _ _ _ _ _ Hq) in H as [H|[(old & Hold & Hne & H)|H]];
      try discriminate;
      try (injection H as -> _; rewrite <- Hc; auto);
      simpl in H; intuition discriminate.
  - cbn [trace]. rewrite in_app_iff. intros [H|H].
    + pose proof (proj1 (List.Forall_forall _ _) Hq _ H). discriminate.
    + simpl in H. intuition discriminate.
Qed.

Lemma PluginIPFSCommit_trace s e :
  In e (trace (PluginIPFSCommit env s)) ->
  quiet e = true
  \/ exists wf rest,
       workspaceFolders env = wf :: rest
       /\ In e (trace (commitToIPFS env
                        {| pinata := None; workspaceId := wf_name wf; currentCID := None;
                           settings := settings s; fs := fs s |})).
Proof.
  unfold PluginIPFSCommit, try_catch. unfold bind at 1. cbn [showMessage emit].
  destruct (workspaceFolders env) as [|wf rest] eqn:Hwf.
  - simpl. intuition (subst; auto).
  - unfold bind at 1. cbn [new_PinataService modify].
    unfold bind at 1. cbn [gets prepend].
    rewrite handler_jwt_truthy. cbn [negb].
    unfold bind at 1.
    destruct (commitToIPFS env _) as [[cid|err] s2 tr] eqn:Hrun.
    + destruct (str_truthy cid); simpl; intros [<-|H]; auto;
        rewrite ?in_app_iff in H; simpl in H;
        intuition (subst; auto);
        right; exists wf, rest; (split; [reflexivity|]); rewrite Hrun; assumption.
    + simpl. intros [<-|H]; auto.
      rewrite ?in_app_iff in H; simpl in H.
      intuition (subst; auto);
        right; exists wf, rest; (split; [reflexivity|]); rewrite Hrun; assumption.
Qed.

(** C10.  Whether a commit unpins is decided by the in-memory current
    CID alone: every unpin a commit issues is for that field's value,
    and a connected commit whose field holds a non-empty CID does issue
    it.  The commit command builds its service instance anew, so it
    never unpins, whatever the settings hold. *)
Theorem commit_unpin_from_memory_only s :
  (forall cid ok, In (EvUnpin cid ok) (trace (commitToIPFS env s)) ->
     currentCID s = Some cid /\ cid <> "")
  /\ (forall cid, outcome (ensureInitialized env s) = Ok true ->
        currentCID s = Some cid -> cid <> "" ->
        In (EvUnpin cid (unpin env cid)) (trace (commitToIPFS env s)))
  /\ (forall cid ok, ~ In (EvUnpin cid ok) (trace (PluginIPFSCommit env s))).
Proof.
  split; [|split].
  - apply commit_unpin_inv.
  - intros cid Hinit Hcur Hne.
    pose proof (commit_store_log env s cid Hinit Hcur Hne) as Hlog.
    assert (Hin : In (EvUnpin cid (unpin env cid))
                    (List.filter is_store_event (trace (commitToIPFS env s)))).
    { rewrite Hlog. left. reflexivity. }
    apply List.filter_In in Hin. apply Hin.
  - intros cid ok H. apply PluginIPFSCommit_trace in H as [H|(wf & rest & _ & H)].
    + discriminate.
    + apply commit_unpin_inv in H as [H _]. discriminate.
Qed.
End HandlerFacts.

Lemma commit_unpin_from_memory_only_witness :
  (currentCID committed_state = Some "QmOld" /\ "QmOld" <> "")
  /\ In (EvUnpin "QmOld" (unpin working_env "QmOld"))
       (trace (commitToIPFS working_env committed_state))
  /\ ~ In (EvUnpin "QmOld" true) (trace (PluginIPFSCommit working_env persisted_state)).
Proof.
  split; [|split].
  - apply (proj1 (commit_unpin_from_memory_only working_env committed_state) "QmOld" true).
    vm_compute. do 2 right. left. reflexivity.
  - apply (proj1 (proj2 (commit_unpin_from_memory_only working_env committed_state)) "QmOld").
    + vm_compute. reflexivity.
    + reflexivity.
    + discriminate.
  - apply (proj2 (proj2 (commit_unpin_from_memory_only working_env persisted_state))).
Defined.

Lemma prepend_nil {A} (r : Result A) : prepend [] r = r.
Proof. destruct r. reflexivity. Qed.

(** ** Restore: loading *)

Section LoadFacts.
Context (env : Env).

Lemma load_cases cid s :
  exists b s1 tr0,
    ensureInitialized env s = mkResult (Ok b) s1 tr0
    /\ same_outside_pinata s s1
    /\ Forall (fun e => quiet e = true) tr0
    /\ loadFromIPFS env cid s
       = if b then prepend tr0 (load_body_result env cid s1)
         else mkResult (Ok None) s1 tr0.
Proof.
  destruct (ensureInitialized_run env s) as (b & s1 & tr0 & Hrun & Hs & Hq).
  exists b, s1, tr0. repeat split; try assumption; try apply Hs.
  unfold loadFromIPFS. unfold bind at 1. rewrite Hrun.
  destruct b; cbn [negb]; [|simpl; rewrite app_nil_r; reflexivity].
  f_equal. unfold load_body_result.
  unfold try_catch at 1. unfold bind at 1. cbn [showMessage emit prepend].
  unfold pinata_gateways_get. unfold bind at 1. unfold bind at 1. cbn [emit prepend].
  destruct (gateways_get env cid) as [doc|]; [|reflexivity].
  cbn [ret prepend app].
  destruct (js_prop doc "version") as [v|]; [|reflexivity].
  destruct (js_prop doc "workspaceId") as [w|]; [|reflexivity].
  destruct (negb (js_truthy v) || negb (js_truthy w)); [reflexivity|].
  unfold config_update, showMessage, bind, emit, modify, ret, throw.
  destruct (config_update_ok env POINTER_KEY); reflexivity.
Qed.

(** C9.  A successful [loadFromIPFS(cid)] moves the pointer too: when it
    returns a document, the in-memory current CID and the persisted
    pointer setting are both [cid]. *)
Theorem load_moves_pointer cid s doc :
  outcome (loadFromIPFS env cid s) = Ok (Some doc) ->
  currentCID (final (loadFromIPFS env cid s)) = Some cid
  /\ settings (final (loadFromIPFS env cid s)) !! POINTER_KEY = Some cid.
Proof.
  destruct (load_cases cid s) as (b & s1 & tr0 & _ & _ & _ & ->).
  destruct b; [|discriminate].
  unfold load_body_result.
  destruct (gateways_get env cid) as [d|]; [|discriminate].
  destruct (js_prop d "version") as [v|]; [|discriminate].
  destruct (js_prop d "workspaceId") as [w|]; [|discriminate].
  destruct (negb (js_truthy v) || negb (js_truthy w)); [discriminate|].
  destruct (config_update_ok env POINTER_KEY); [|discriminate].
  cbn [prepend outcome final]. intros _. split; [reflexivity|].
  simpl. apply lookup_insert_eq.
Qed.
Lemma passes_validation_object doc :
  passes_validation doc = true -> exists props, doc = JObj props.
Proof.
  unfold passes_validation, js_prop.
  destruct doc as [| | | | | |props]; simpl; try discriminate. eauto.
Qed.

Lemma load_body_invalid cid doc s :
  gateways_get env cid = Some doc ->
  passes_validation doc = false ->
  exists msg,
    load_body_result env cid s
    = mkResult (Ok None) s
        ([EvShowMessage Info "Loading workspace state from IPFS...";
          EvGatewayGet cid (Some doc)] ++ load_failure_log msg)
    /\ (msg = "Invalid workspace state format"
        \/ (msg = "TypeError: Cannot read properties of null"
            /\ (doc = JNull \/ doc = JUndefined))).
Proof.
  intros Hget Hval. unfold load_body_result. rewrite Hget.
  unfold passes_validation in Hval.
  destruct (js_prop doc "version") as [v|] eqn:Hv.
  - destruct (js_prop doc "workspaceId") as [w|] eqn:Hw.
    + replace (negb (js_truthy v) || negb (js_truthy w)) with true
        by (destruct (js_truthy v), (js_truthy w); simpl in *; congruence).
      eauto.
    + eexists. split; [reflexivity|]. right. split; [reflexivity|].
      destruct doc; simpl in Hw; try discriminate; auto.
  - eexists. split; [reflexivity|]. right. split; [reflexivity|].
    destruct doc; simpl in Hv; try discriminate; auto.
Qed.

Lemma load_body_valid cid doc s :
  gateways_get env cid = Some doc ->
  passes_validation doc = true ->
  config_update_ok env POINTER_KEY = true ->
  load_body_result env cid s
  = mkResult (Ok (Some doc))
      (set_settings (<[POINTER_KEY := cid]> (settings s)) (set_currentCID (Some cid) s))
      [EvShowMessage Info "Loading workspace state from IPFS...";
       EvGatewayGet cid (Some doc);
       EvConfigUpdate POINTER_KEY cid true;
       EvShowMessage Info ("Workspace state loaded from IPFS: " +:+ cid)].
Proof.
  intros Hget Hval Hcfg. unfold load_body_result. rewrite Hget, Hcfg.
  unfold passes_validation in Hval.
  destruct (js_prop doc "version") as [v|]; [|discriminate].
  destruct (js_prop doc "workspaceId") as [w|]; [|discriminate].
  apply andb_true_iff in Hval as [-> ->]. reflexivity.
Qed.

End LoadFacts.

Lemma load_moves_pointer_witness :
  currentCID (final (loadFromIPFS (sync_env snapshot_doc nothing_denied) snapshot_cid
                       empty_root_state)) = Some snapshot_cid
  /\ settings (final (loadFromIPFS (sync_env snapshot_doc nothing_denied) snapshot_cid
                        empty_root_state)) !! POINTER_KEY = Some snapshot_cid.
Proof.
  apply (load_moves_pointer (sync_env snapshot_doc nothing_denied) snapshot_cid
           empty_root_state snapshot_doc).
  vm_compute. reflexivity.
Defined.

(** ** Restore: materializing *)

Section SyncFacts.
Context (env : Env).

(** Creating a directory inside its own [try] never raises and writes no
    file. *)
Lemma try_createDirectory_run uri s :
  exists s' tr,
    try_catch (fs_createDirectory env uri) (fun _ => ret tt) s = mkResult (Ok tt) s' tr
    /\ List.filter is_write_event tr = [].
Proof.
  unfold try_catch, fs_createDirectory.
  destruct (io_denied env OpMkdir uri); [simpl; eauto|].
  destruct (fs s !! uri) as [[bytes| | |]|]; simpl; eauto.
Qed.

Lemma createFolder_loop root fl : forall s,
  exists s' tr,
    for_of (map JStr fl) (createFolder env root) tt s = mkResult (Ok tt) s' tr
    /\ List.filter is_write_event tr = [].
Proof.
  induction fl as [|f fl IH]; intros s; simpl; [eauto|].
  unfold bind at 1. unfold createFolder at 1. unfold bind at 1. cbn [Uri_joinPath ret prepend].
  destruct (try_createDirectory_run (joinPath env root f) s) as (s1 & tr1 & -> & Hf1).
  cbn [prepend app].
  destruct (IH s1) as (s2 & tr2 & -> & Hf2).
  cbn [prepend]. do 2 eexists. split; [reflexivity|].
  rewrite List.filter_app, Hf1, Hf2. reflexivity.
Qed.

Lemma restoreFile_run root kv s :
  exists s' tr,
    restoreFile env root tt (text_entry kv) s
    = mkResult (if write_allowed env root kv then Ok tt
                else Throw ("writeFile failed: " +:+ joinPath env root (fst kv)))
        s' tr
    /\ List.filter is_write_event tr = [write_event env root (write_allowed env root kv) kv].
Proof.
  unfold restoreFile. unfold bind at 1.
  destruct (try_createDirectory_run
              (joinPath env (joinPath env root (fst (text_entry kv))) "..") s)
    as (s1 & tr1 & -> & Hf1).
  unfold bind at 1. cbn [text_entry fst snd Buffer_from ret prepend app].
  unfold fs_writeFile, write_allowed, write_event.
  destruct (io_denied env OpWrite (joinPath env root (fst kv))); simpl;
    do 2 eexists; (split; [reflexivity|]);
    rewrite List.filter_app, Hf1; reflexivity.
Qed.

Lemma restore_loop_all root es : forall s,
  forallb (write_allowed env root) es = true ->
  exists s' tr,
    for_of (map text_entry es) (restoreFile env root) tt s = mkResult (Ok tt) s' tr
    /\ List.filter is_write_event tr = map (write_event env root true) es.
Proof.
  induction es as [|kv es IH]; intros s Hall; simpl in *; [eauto|].
  apply andb_true_iff in Hall as [Hkv Hall].
  unfold bind at 1.
  destruct (restoreFile_run root kv s) as (s1 & tr1 & -> & Hf1).
  rewrite Hkv in *.
  destruct (IH s1 Hall) as (s2 & tr2 & -> & Hf2).
  cbn [prepend]. do 2 eexists. split; [reflexivity|].
  rewrite List.filter_app, Hf1, Hf2. reflexivity.
Qed.

Lemma restore_loop_abort root pre kv post : forall s,
  forallb (write_allowed env root) pre = true ->
  write_allowed env root kv = false ->
  exists s' tr,
    for_of (map text_entry (pre ++ kv :: post)) (restoreFile env root) tt s
    = mkResult (Throw ("writeFile failed: " +:+ joinPath env root (fst kv))) s' tr
    /\ List.filter is_write_event tr
       = map (write_event env root true) pre ++ [write_event env root false kv].
Proof.
  induction pre as [|kv0 pre IH]; intros s Hall Hkv; simpl in *.
  - unfold bind at 1.
    destruct (restoreFile_run root kv s) as (s1 & tr1 & -> & Hf1).
    rewrite Hkv in *. eauto.
  - apply andb_true_iff in Hall as [Hkv0 Hall].
    unfold bind at 1.
    destruct (restoreFile_run root kv0 s) as (s1 & tr1 & -> & Hf1).
    rewrite Hkv0 in *.
    destruct (IH s1 Hall Hkv) as (s2 & tr2 & -> & Hf2).
    cbn [prepend]. do 2 eexists. split; [reflexivity|].
    rewrite List.filter_app, Hf1, Hf2. reflexivity.
Qed.

(** [syncFromIPFS] never raises. *)
Lemma syncFromIPFS_total doc s :
  exists b s' tr, syncFromIPFS env doc s = mkResult (Ok b) s' tr.
Proof.
  unfold syncFromIPFS, try_catch.
  match goal with |- context [match ?m s with _ => _ end] => destruct (m s) as [[b|e] s' tr] end.
  - eauto.
  - simpl. eauto.
Qed.

(** Runs [syncFromIPFS] up to the loop over the file entries. *)
Ltac sync_to_file_loop Hwf Hfolders Hfiles Hentries root fl s :=
  unfold syncFromIPFS, try_catch; unfold bind at 1; cbn [showMessage emit prepend];
  rewrite Hwf; unfold bind at 1; unfold bind at 1; unfold js_get at 1; rewrite Hfolders;
  cbn [ret prepend app]; unfold bind at 1; cbn [js_iterate ret prepend app];
  unfold bind at 1;
  let s1 := fresh "s1" in
  let tr1 := fresh "tr1" in
  let Hf1 := fresh "Hf1" in
  destruct (createFolder_loop root fl s) as (s1 & tr1 & -> & Hf1);
  cbn [prepend]; unfold bind at 1; unfold js_get at 1; rewrite Hfiles;
  cbn [ret prepend app]; unfold bind at 1; cbn [js_Object_entries ret prepend app];
  rewrite Hentries.

Lemma syncFromIPFS_run doc s wf rest fl props es :
  workspaceFolders env = wf :: rest ->
  js_prop doc "folders" = Some (JArr (map JStr fl)) ->
  js_prop doc "files" = Some (JObj props) ->
  Object_entries props = map text_entry es ->
  (forallb (write_allowed env (wf_uri wf)) es = true ->
     exists s' tr,
       syncFromIPFS env doc s = mkResult (Ok true) s' tr
       /\ List.filter is_write_event tr = map (write_event env (wf_uri wf) true) es)
  /\ (forall pre kv post,
        es = pre ++ kv :: post ->
        forallb (write_allowed env (wf_uri wf)) pre = true ->
        write_allowed env (wf_uri wf) kv = false ->
        exists s' tr,
          syncFromIPFS env doc s = mkResult (Ok false) s' tr
          /\ List.filter is_write_event tr
             = map (write_event env (wf_uri wf) true) pre
               ++ [write_event env (wf_uri wf) false kv]).
Proof.
  intros Hwf Hfolders Hfiles Hentries.
  split.
  - intros Hall.
    sync_to_file_loop Hwf Hfolders Hfiles Hentries (wf_uri wf) fl s.
    destruct (restore_loop_all (wf_uri wf) es s1 Hall) as (s2 & tr2 & -> & Hf2).
    simpl. do 2 eexists. split; [reflexivity|].
    simpl. rewrite !List.filter_app, Hf1, Hf2. simpl. rewrite app_nil_r. reflexivity.
  - intros pre kv post -> Hpre Hkv.
    sync_to_file_loop Hwf Hfolders Hfiles Hentries (wf_uri wf) fl s.
    destruct (restore_loop_abort (wf_uri wf) pre kv post s1 Hpre Hkv)
      as (s2 & tr2 & -> & Hf2).
    simpl. do 2 eexists. split; [reflexivity|].
    simpl. rewrite !List.filter_app, Hf1, Hf2. simpl. rewrite app_nil_r. reflexivity.
Qed.

(** C3, as the code has it.  For a document whose folders are strings
    and whose files hold text, materialization writes the files in the
    order of [Object.entries], whatever happens to the directories.
    If every write is accepted, all files are written and the result is
    [true].  The first rejected write ends the loop: the files before it
    are written, the failing write is the last one attempted, and the
    result is [false]. *)
Theorem write_failure_aborts_materialization doc s wf rest fl props es :
  workspaceFolders env = wf :: rest ->
  js_prop doc "folders" = Some (JArr (map JStr fl)) ->
  js_prop doc "files" = Some (JObj props) ->
  Object_entries props = map text_entry es ->
  (forallb (write_allowed env (wf_uri wf)) es = true ->
     outcome (syncFromIPFS env doc s) = Ok true
     /\ List.filter is_write_event (trace (syncFromIPFS env doc s))
        = map (write_event env (wf_uri wf) true) es)
  /\ (forall pre kv post,
        es = pre ++ kv :: post ->
        forallb (write_allowed env (wf_uri wf)) pre = true ->
        write_allowed env (wf_uri wf) kv = false ->
        outcome (syncFromIPFS env doc s) = Ok false
        /\ List.filter is_write_event (trace (syncFromIPFS env doc s))
           = map (write_event env (wf_uri wf) true) pre
             ++ [write_event env (wf_uri wf) false kv]).
Proof.
  intros Hwf Hfolders Hfiles Hentries.
  destruct (syncFromIPFS_run doc s wf rest fl props es Hwf Hfolders Hfiles Hentries)
    as [Hall Habort].
  split.
  - intros H. destruct (Hall H) as (s' & tr & -> & Hf). auto.
  - intros pre kv post He Hpre Hkv.
    destruct (Habort pre kv post He Hpre Hkv) as (s' & tr & -> & Hf). auto.
Qed.
End SyncFacts.

Lemma write_failure_aborts_materialization_witness :
  (outcome (syncFromIPFS (sync_env snapshot_doc nothing_denied) snapshot_doc empty_root_state)
   = Ok true
   /\ List.filter is_write_event
        (trace (syncFromIPFS (sync_env snapshot_doc nothing_denied) snapshot_doc
                  empty_root_state))
      = [EvWriteFile "/ws/a.txt" "hello" true; EvWriteFile "/ws/b.txt" "world" true])
  /\ (outcome (syncFromIPFS (sync_env snapshot_doc a_unwritable) snapshot_doc empty_root_state)
      = Ok false
      /\ List.filter is_write_event
           (trace (syncFromIPFS (sync_env snapshot_doc a_unwritable) snapshot_doc
                     empty_root_state))
         = [EvWriteFile "/ws/a.txt" "hello" false]).
Proof.
  split.
  - apply (proj1 (write_failure_aborts_materialization
                    (sync_env snapshot_doc nothing_denied) snapshot_doc empty_root_state
                    ws_folder [] ["src"]
                    [("a.txt", JStr "hello"); ("b.txt", JStr "world")] snapshot_entries
                    eq_refl eq_refl eq_refl eq_refl)).
    reflexivity.
  - apply (proj2 (write_failure_aborts_materialization
                    (sync_env snapshot_doc a_unwritable) snapshot_doc empty_root_state
                    ws_folder [] ["src"]
                    [("a.txt", JStr "hello"); ("b.txt", JStr "world")] snapshot_entries
                    eq_refl eq_refl eq_refl eq_refl)
             [] ("a.txt", "hello") [("b.txt", "world")]);
      reflexivity.
Defined.

(** C3, as claimed: the other files would still be written and the
    operation would not fail as a whole.  Here the write of [a.txt] is
    rejected; [b.txt] is never written and [syncFromIPFS] returns
    [false]. *)
Lemma one_failed_write_stops_the_rest :
  outcome (syncFromIPFS (sync_env snapshot_doc a_unwritable) snapshot_doc empty_root_state)
  = Ok false
  /\ List.filter is_write_event
       (trace (syncFromIPFS (sync_env snapshot_doc a_unwritable) snapshot_doc
                 empty_root_state))
     = [EvWriteFile "/ws/a.txt" "hello" false]
  /\ fs (final (syncFromIPFS (sync_env snapshot_doc a_unwritable) snapshot_doc
                  empty_root_state)) !! "/ws/b.txt" = None.
Proof. repeat split; vm_compute; reflexivity. Qed.

(** ** Restore: the command *)

Section SyncHandler.
Context (env : Env).

(** C5, as the code has it.  The restore command, once connected and
    given the blob, checks only that [version] and [workspaceId] can be
    read and are truthy.  A blob that fails this check makes
    [loadFromIPFS] return [null], and the command ends without touching
    the disk or the settings.  A blob that passes it, whatever the types
    of the two fields, is returned as it was fetched and handed to
    [syncFromIPFS]. *)
Theorem restore_validates_by_truthiness s wf rest cid doc :
  workspaceFolders env = wf :: rest ->
  showInputBox env = Some cid -> cid <> "" ->
  outcome (ensureInitialized env (fresh_service wf s)) = Ok true ->
  gateways_get env cid = Some doc ->
  (passes_validation doc = false ->
     outcome (loadFromIPFS env cid (fresh_service wf s)) = Ok None
     /\ (forall e, In e (trace (PluginIPFSSync env s)) -> is_fs_event e = false)
     /\ fs (final (PluginIPFSSync env s)) = fs s
     /\ settings (final (PluginIPFSSync env s)) = settings s)
  /\ (passes_validation doc = true ->
      config_update_ok env POINTER_KEY = true ->
      exists s2 tr2,
        loadFromIPFS env cid (fresh_service wf s) = mkResult (Ok (Some doc)) s2 tr2
        /\ trace (PluginIPFSSync env s) = tr2 ++ trace (syncFromIPFS env doc s2)
        /\ final (PluginIPFSSync env s) = final (syncFromIPFS env doc s2)).
Proof.
  intros Hwf Hinput Hcid Hinit Hget.
  assert (Hhandler :
    PluginIPFSSync env s
    = try_catch
        (workspaceState <- loadFromIPFS env cid ;;
         match workspaceState with
         | Some w =>
             if negb (js_truthy w) then throw "Failed to load workspace state from IPFS"
             else syncFromIPFS env w ;; ret tt
         | None => throw "Failed to load workspace state from IPFS"
         end)
        (fun error =>
           console Error ("Error during IPFS sync: " +:+ error) ;;
           showMessage Error ("IPFS Sync Failed: " +:+ error))
        (fresh_service wf s)).
  { unfold PluginIPFSSync, try_catch. rewrite Hwf.
    unfold bind at 1. cbn [new_PinataService modify prepend].
    unfold bind at 1. cbn [gets prepend].
    rewrite handler_jwt_truthy, Hinput. cbn [negb str_truthy default].
    destruct (String.eqb cid "") eqn:E; [apply String.eqb_eq in E; contradiction|].
    cbn [negb]. rewrite !prepend_nil. reflexivity. }
  destruct (load_cases env cid (fresh_service wf s))
    as (b & s1 & tr0 & Hrun & Hsame & Hq & Hload).
  rewrite Hrun in Hinit. injection Hinit as ->.
  split.
  - intros Hval.
    destruct (load_body_invalid env cid doc s1 Hget Hval) as (msg & Hbody & _).
    rewrite Hbody in Hload. cbn [prepend] in Hload.
    rewrite Hhandler. unfold try_catch, bind. rewrite Hload. cbn.
    destruct Hsame as (_ & _ & Hset & Hfs).
    repeat split; try assumption.
    intros e He. rewrite !in_app_iff in He. simpl in He.
    repeat match goal with
           | H : _ \/ _ |- _ => destruct H
           | H : False |- _ => destruct H
           end; subst; try reflexivity.
    match goal with
    | H : In e tr0 |- _ =>
        pose proof (proj1 (List.Forall_forall _ _) Hq _ H) as Hquiet
    end.
    destruct e; simpl in Hquiet; try discriminate; reflexivity.
  - intros Hval Hcfg.
    rewrite (load_body_valid env cid doc s1 Hget Hval Hcfg) in Hload. cbn [prepend] in Hload.
    do 2 eexists. split; [exact Hload|].
    destruct (passes_validation_object doc Hval) as (props & ->).
    match type of Hload with _ = mkResult _ ?s2 ?tr2 =>
      destruct (syncFromIPFS_total env (JObj props) s2) as (b & s3 & tr3 & Hsync);
      assert (Hfull : PluginIPFSSync env s = mkResult (Ok tt) s3 (tr2 ++ tr3))
    end.
    { rewrite Hhandler. unfold try_catch, bind. rewrite Hload.
      cbn [js_truthy negb prepend]. rewrite Hsync. cbn. rewrite app_nil_r. reflexivity. }
    rewrite Hfull, Hsync. auto.
Qed.
End SyncHandler.

Lemma restore_validates_by_truthiness_witness :
  (outcome (loadFromIPFS (sync_env empty_version_doc nothing_denied) snapshot_cid
              (fresh_service ws_folder empty_root_state)) = Ok None
   /\ fs (final (PluginIPFSSync (sync_env empty_version_doc nothing_denied) empty_root_state))
      = fs empty_root_state)
  /\ exists s2 tr2,
       loadFromIPFS (sync_env snapshot_doc nothing_denied) snapshot_cid
         (fresh_service ws_folder empty_root_state)
       = mkResult (Ok (Some snapshot_doc)) s2 tr2
       /\ trace (PluginIPFSSync (sync_env snapshot_doc nothing_denied) empty_root_state)
          = tr2 ++ trace (syncFromIPFS (sync_env snapshot_doc nothing_denied) snapshot_doc s2).
Proof.
  split.
  - destruct (proj1 (restore_validates_by_truthiness
                       (sync_env empty_version_doc nothing_denied) empty_root_state
                       ws_folder [] snapshot_cid empty_version_doc
                       eq_refl eq_refl ltac:(discriminate) eq_refl eq_refl) eq_refl)
      as (Hload & _ & Hfs & _).
    split; assumption.
  - destruct (proj2 (restore_validates_by_truthiness
                       (sync_env snapshot_doc nothing_denied) empty_root_state
                       ws_folder [] snapshot_cid snapshot_doc
                       eq_refl eq_refl ltac:(discriminate) eq_refl eq_refl) eq_refl eq_refl)
      as (s2 & tr2 & Hload & Htrace & _).
    exists s2, tr2. split; assumption.
Defined.

(** C5, as claimed: a blob whose [schemaVersion] is not of the expected
    type would be rejected, and one whose two fields are present and
    well-typed would be restored.  A numeric version passes the check and
    its files are written; an empty version string is rejected. *)
Lemma validation_ignores_types :
  (js_prop numeric_version_doc "version" = Some (JNum 1)
   /\ outcome (loadFromIPFS (sync_env numeric_version_doc nothing_denied) snapshot_cid
                 (fresh_service ws_folder empty_root_state))
      = Ok (Some numeric_version_doc)
   /\ In (EvWriteFile "/ws/a.txt" "hello" true)
        (trace (PluginIPFSSync (sync_env numeric_version_doc nothing_denied)
                  empty_root_state)))
  /\ (js_prop empty_version_doc "version" = Some (JStr "")
      /\ js_prop empty_version_doc "workspaceId" = Some (JStr "ws")
      /\ outcome (loadFromIPFS (sync_env empty_version_doc nothing_denied) snapshot_cid
                    (fresh_service ws_folder empty_root_state))
         = Ok None
      /\ List.filter is_fs_event
           (trace (PluginIPFSSync (sync_env empty_version_doc nothing_denied)
                     empty_root_state))
         = []).
Proof.
  split; [split; [|split]|split; [|split; [|split]]]; try (vm_compute; reflexivity).
  vm_compute. do 8 right. left. reflexivity.
Qed.

(** ** Credentials *)

(** C8.  What the code does when no credential is configured: the
    configuration is resolved with the bundled development token, and no
    settings or environment make [getPinataConfig] return [null].  The
    branch of [ensureInitialized] that reports a missing configuration is
    therefore never taken. *)
Theorem missing_credential_uses_bundled_token :
  getPinataConfig working_env ∅
  = Some {| jwt := DEV_FALLBACK_JWT; gateway := Some DEFAULT_GATEWAY |}
  /\ (forall env cfg, getPinataConfig env cfg <> None).
Proof.
  split; [vm_compute; reflexivity|].
  intros env cfg. destruct (getPinataConfig_Some env cfg) as (c & -> & _). discriminate.
Qed.


(** ** More on connecting *)

Section ConnectMore.
Context (env : Env).

Lemma ensureInitialized_connected s p :
  pinata s = Some p -> ensureInitialized env s = mkResult (Ok true) s [].
Proof. intros H. unfold ensureInitialized, bind, gets. rewrite H. reflexivity. Qed.

Lemma ensureInitialized_handle s s1 tr :
  ensureInitialized env s = mkResult (Ok true) s1 tr -> pinata s1 <> None.
Proof.
  unfold ensureInitialized, bind, gets.
  destruct (pinata s) as [p|] eqn:Hp; simpl.
  - intros H. injection H as <- _. rewrite Hp. discriminate.
  - destruct (getPinataConfig_Some env (settings s)) as (c & -> & _).
    unfold initialize, try_catch, bind, pinata_testAuthentication, bind, emit, modify.
    simpl. destruct (testAuthentication env c); simpl; intros H; [|discriminate].
    injection H as <- _. discriminate.
Qed.

(** X1. A connection test that fails is not repeated: [initialize] stores
    the client before it tests it, so when the service rejects the
    credentials the first [ensureInitialized] answers [false] and the
    commit returns [null], but the next [ensureInitialized] on the same
    instance answers [true] without any test, and the next commit goes
    on to the upload. *)
Theorem failed_connection_is_not_retried s :
  pinata s = None ->
  (forall c, testAuthentication env c = false) ->
  outcome (ensureInitialized env s) = Ok false
  /\ ensureInitialized env (final (ensureInitialized env s))
     = mkResult (Ok true) (final (ensureInitialized env s)) []
  /\ outcome (commitToIPFS env s) = Ok None
  /\ exists req res,
       In (EvUpload req res) (trace (commitToIPFS env (final (commitToIPFS env s)))).
Proof.
  intros Hp Hauth.
  assert (Hrun : exists c,
            ensureInitialized env s
            = mkResult (Ok false)
                (set_pinata (Some {| jwt := jwt c;
                                     gateway := Some (str_or (gateway c) DEFAULT_GATEWAY) |}) s)
                [EvTestAuthentication c false;
                 EvConsole Error ("Failed to initialize Pinata: " +:+ "Authentication failed");
                 EvShowMessage Error ("Failed to connect to Pinata: " +:+ "Authentication failed")]).
  { unfold ensureInitialized, bind, gets. rewrite Hp. simpl.
    destruct (getPinataConfig_Some env (settings s)) as (c & -> & _).
    exists c. unfold initialize, try_catch, bind, pinata_testAuthentication, bind, emit, modify.
    simpl. rewrite Hauth. reflexivity. }
  destruct Hrun as (c & Hrun).
  set (s1 := set_pinata (Some {| jwt := jwt c;
                                 gateway := Some (str_or (gateway c) DEFAULT_GATEWAY) |}) s)
    in *.
  assert (Hsame : same_outside_pinata s s1) by (repeat split).
  rewrite Hrun. cbn [outcome final].
  split; [reflexivity|]. split; [apply (ensureInitialized_connected s1 _ eq_refl)|].
  assert (Hfirst : commitToIPFS env s
                   = mkResult (Ok None) s1
                       ([EvTestAuthentication c false;
                         EvConsole Error ("Failed to initialize Pinata: " +:+ "Authentication failed");
                         EvShowMessage Error ("Failed to connect to Pinata: " +:+ "Authentication failed")]
                        ++ [EvConsole Error "Failed to initialize Pinata"])).
  { rewrite commitToIPFS_run. unfold commit_result. rewrite Hrun. reflexivity. }
  rewrite Hfirst. cbn [outcome final]. split; [reflexivity|].
  rewrite commitToIPFS_run. unfold commit_result.
  rewrite (ensureInitialized_connected s1 _ eq_refl). cbn [prepend].
  unfold commit_body_result.
  exists (commit_request env s1), (upload_file env (commit_request env s1)).
  destruct (upload_file env (commit_request env s1)) as [cid|];
    [destruct (config_update_ok env POINTER_KEY)|]; cbn [prepend trace app];
    rewrite !in_app_iff; right; left; reflexivity.
Qed.

(** X2. Where the credential and the gateway come from: the token the
    command handlers test is the one [getPinataConfig] resolves; a
    non-empty [cline.pinata.jwt] setting wins, then a non-empty
    [PINATA_JWT] of the environment; the gateway is the
    [cline.pinata.gateway] setting when non-empty, else [PINATA_GATEWAY],
    else [gateway.pinata.cloud]. *)
Theorem configuration_lookup_order cfg :
  jwt <$> getPinataConfig env cfg = handler_jwt env cfg
  /\ (forall j, cfg !! "cline.pinata.jwt" = Some j -> j <> "" ->
        handler_jwt env cfg = Some j)
  /\ (forall j, str_truthy (cfg !! "cline.pinata.jwt") = false ->
        process_env env !! "PINATA_JWT" = Some j -> j <> "" ->
        handler_jwt env cfg = Some j)
  /\ (forall c, getPinataConfig env cfg = Some c ->
        gateway c
        = Some (if str_truthy (cfg !! "cline.pinata.gateway")
                then default "" (cfg !! "cline.pinata.gateway")
                else str_or (process_env env !! "PINATA_GATEWAY") DEFAULT_GATEWAY)).
Proof.
  split; [|split; [|split]].
  - unfold getPinataConfig, handler_jwt.
    destruct (cfg !! "cline.pinata.jwt") as [j|]; simpl;
      [destruct (String.eqb j "") eqn:Hj; simpl; rewrite ?Hj; simpl|];
      try (destruct (process_env env !! "PINATA_JWT") as [k|]; simpl;
           [destruct (String.eqb k "") eqn:Hk; simpl; rewrite ?Hk; simpl|]);
      repeat (match goal with H : String.eqb _ _ = _ |- _ => rewrite H end; simpl);
      reflexivity.
  - intros j Hj Hne. unfold handler_jwt. rewrite Hj. simpl.
    apply String.eqb_neq in Hne. rewrite Hne. simpl. rewrite Hne. reflexivity.
  - intros j Hcfg Henv Hne. unfold handler_jwt. rewrite Hcfg, Henv. simpl.
    apply String.eqb_neq in Hne. rewrite Hne. reflexivity.
  - intros c. unfold getPinataConfig.
    set (j2 := if negb (str_truthy (if negb (str_truthy (cfg !! "cline.pinata.jwt"))
                                    then process_env env !! "PINATA_JWT"
                                    else cfg !! "cline.pinata.jwt"))
               then Some DEV_FALLBACK_JWT
               else (if negb (str_truthy (cfg !! "cline.pinata.jwt"))
                     then process_env env !! "PINATA_JWT"
                     else cfg !! "cline.pinata.jwt")).
    destruct j2 as [j|]; [|discriminate].
    destruct (String.eqb j ""); [discriminate|].
    intros H. injection H as <-. cbn [gateway]. f_equal.
    destruct (cfg !! "cline.pinata.gateway") as [g|]; simpl.
    + destruct (String.eqb g "") eqn:Hg; simpl; [|rewrite Hg; reflexivity].
      destruct (process_env env !! "PINATA_GATEWAY") as [h|]; simpl; [|reflexivity].
      destruct (String.eqb h "") eqn:Hh; simpl; rewrite ?Hh; reflexivity.
    + destruct (process_env env !! "PINATA_GATEWAY") as [h|]; simpl; [|reflexivity].
      destruct (String.eqb h "") eqn:Hh; simpl; rewrite ?Hh; reflexivity.
Qed.
End ConnectMore.

Lemma failed_connection_is_not_retried_witness :
  outcome (ensureInitialized rejected_env fresh_state) = Ok false
  /\ ensureInitialized rejected_env (final (ensureInitialized rejected_env fresh_state))
     = mkResult (Ok true) (final (ensureInitialized rejected_env fresh_state)) []
  /\ outcome (commitToIPFS rejected_env fresh_state) = Ok None
  /\ exists req res,
       In (EvUpload req res)
          (trace (commitToIPFS rejected_env (final (commitToIPFS rejected_env fresh_state)))).
Proof.
  apply (failed_connection_is_not_retried rejected_env fresh_state).
  - reflexivity.
  - intros c. reflexivity.
Defined.

Lemma configuration_lookup_order_witness :
  handler_jwt both_tokens_env settings_with_token = Some "settings-token"
  /\ handler_jwt both_tokens_env ∅ = Some "env-token"
  /\ (gateway <$> getPinataConfig both_tokens_env settings_with_token)
     = Some (Some "env.gateway").
Proof.
  split; [|split].
  - apply (proj1 (proj2 (configuration_lookup_order both_tokens_env settings_with_token))
             "settings-token"); [reflexivity|discriminate].
  - apply (proj1 (proj2 (proj2 (configuration_lookup_order both_tokens_env ∅)))
             "env-token"); [reflexivity|reflexivity|discriminate].
  - destruct (getPinataConfig both_tokens_env settings_with_token) as [c|] eqn:E;
      [|vm_compute in E; discriminate].
    cbn [fmap option_fmap option_map].
    rewrite (proj2 (proj2 (proj2 (configuration_lookup_order both_tokens_env
                                    settings_with_token))) c E).
    reflexivity.
Defined.


(** ** More on commit *)

(** Goes through a finite list of events and settles the level of each
    message. *)
Ltac split_events H :=
  repeat match type of H with
         | _ \/ _ => destruct H as [H|H]
         end;
  first [ contradiction
        | discriminate
        | injection H as <- _; discriminate ].

Section CommitMore.
Context (env : Env).

(** A commit that returns a CID went through all three steps. *)
Lemma commit_success_inv s cid :
  outcome (commitToIPFS env s) = Ok (Some cid) ->
  exists s1 tr0,
    ensureInitialized env s = mkResult (Ok true) s1 tr0
    /\ same_outside_pinata s s1
    /\ upload_file env (commit_request env s) = Some cid
    /\ config_update_ok env POINTER_KEY = true
    /\ final (commitToIPFS env s)
       = set_settings (<[POINTER_KEY := cid]> (settings s1)) (set_currentCID (Some cid) s1).
Proof.
  destruct (commit_cases env s) as (b & s1 & tr0 & Hrun & Hsame & Hq & ->).
  destruct b; [|discriminate].
  rewrite <- (commit_request_ext env s s1 Hsame).
  unfold commit_body_result.
  destruct (upload_file env (commit_request env s1)) as [c|];
    [destruct (config_update_ok env POINTER_KEY)|]; cbn [prepend outcome final];
    try discriminate.
  intros H. injection H as ->. eauto 10.
Qed.

(** X3. A commit that returns a ContentId returns the one the upload
    gave, and has moved both pointers to it: the in-memory field and the
    persisted setting, nothing else in the settings being changed;
    [getCurrentCID] then answers that ContentId. *)
Theorem commit_success_moves_pointer s cid :
  outcome (commitToIPFS env s) = Ok (Some cid) ->
  upload_file env (commit_request env s) = Some cid
  /\ currentCID (final (commitToIPFS env s)) = Some cid
  /\ settings (final (commitToIPFS env s)) = <[POINTER_KEY := cid]> (settings s)
  /\ (cid <> "" -> getCurrentCID (final (commitToIPFS env s)) = Some cid).
Proof.
  intros H. destruct (commit_success_inv s cid H) as (s1 & tr0 & _ & Hsame & Hup & _ & ->).
  destruct Hsame as (_ & _ & Hset & _).
  split; [exact Hup|]. split; [reflexivity|]. split; [simpl; rewrite Hset; reflexivity|].
  intros Hne. unfold getCurrentCID. simpl.
  apply String.eqb_neq in Hne. rewrite Hne. reflexivity.
Qed.


(** X5. When the upload succeeds but the pointer setting cannot be
    written, the commit returns [null] although the blob is stored; the
    in-memory pointer has already moved to the new ContentId while the
    settings are unchanged, so the two pointers disagree. *)
Theorem commit_pointer_write_failure s cid :
  outcome (ensureInitialized env s) = Ok true ->
  upload_file env (commit_request env s) = Some cid ->
  config_update_ok env POINTER_KEY = false ->
  outcome (commitToIPFS env s) = Ok None
  /\ currentCID (final (commitToIPFS env s)) = Some cid
  /\ settings (final (commitToIPFS env s)) = settings s.
Proof.
  intros Hinit Hup Hcfg.
  destruct (commit_cases env s) as (b & s1 & tr0 & Hrun & Hsame & Hq & ->).
  rewrite Hrun in Hinit. injection Hinit as ->.
  unfold commit_body_result.
  rewrite (commit_request_ext env s s1 Hsame), Hup, Hcfg. cbn [prepend outcome final].
  destruct Hsame as (_ & _ & Hset & _). auto.
Qed.

(** X6. A failure to unpin the previous blob does not fail the commit:
    it is logged as a console warning, the upload goes on, the commit
    returns the new ContentId, and no error message is shown. *)
Theorem unpin_failure_is_swallowed s old cid :
  outcome (ensureInitialized env s) = Ok true ->
  currentCID s = Some old -> old <> "" ->
  unpin env old = false ->
  upload_file env (commit_request env s) = Some cid ->
  config_update_ok env POINTER_KEY = true ->
  outcome (commitToIPFS env s) = Ok (Some cid)
  /\ (exists msg, In (EvConsole Warn msg) (trace (commitToIPFS env s)))
  /\ forall l msg, In (EvShowMessage l msg) (trace (commitToIPFS env s)) -> l <> Error.
Proof.
  intros Hinit Hcur Hne Hunpin Hup Hcfg.
  destruct (commit_cases env s) as (b & s1 & tr0 & Hrun & Hsame & Hq & ->).
  rewrite Hrun in Hinit. injection Hinit as ->.
  unfold commit_body_result.
  rewrite (commit_request_ext env s s1 Hsame), Hup, Hcfg. cbn [prepend outcome trace].
  assert (Hc1 : currentCID s1 = Some old) by (destruct Hsame as (_ & -> & _); exact Hcur).
  split; [reflexivity|]. split.
  - eexists. rewrite !in_app_iff. right. left. right. unfold unpin_log. rewrite Hc1. simpl.
    apply String.eqb_neq in Hne. rewrite Hne. simpl. rewrite Hunpin.
    right. right. left. reflexivity.
  - intros l msg Hin.
    rewrite !in_app_iff in Hin. destruct Hin as [Hin|[[Hin|Hin]|Hin]].
    + (* connection: the handle is reused or the test passed *)
      revert Hin. clear -Hrun.
      unfold ensureInitialized, bind, gets in Hrun.
      destruct (pinata s) as [p|]; simpl in Hrun.
      * injection Hrun as _ <-. intros [].
      * destruct (getPinataConfig_Some env (settings s)) as (c & Hc & _).
        rewrite Hc in Hrun.
        unfold initialize, try_catch, bind, pinata_testAuthentication, bind, emit, modify
          in Hrun.
        simpl in Hrun. destruct (testAuthentication env c); simpl in Hrun; [|discriminate].
        injection Hrun as _ <-. intros [H|[]]. discriminate.
    + apply in_scanLog in Hin as (m & Hin). discriminate.
    + unfold unpin_log in Hin. rewrite Hc1 in Hin. simpl in Hin.
      apply String.eqb_neq in Hne. rewrite Hne in Hin. simpl in Hin. rewrite Hunpin in Hin.
      simpl in Hin. split_events Hin.
    + simpl in Hin. split_events Hin.
Qed.

(** X7. On one service instance, the commit after a successful commit
    asks the pinning service to unpin the ContentId that commit
    returned. *)
Theorem next_commit_unpins_previous s cid :
  outcome (commitToIPFS env s) = Ok (Some cid) -> cid <> "" ->
  In (EvUnpin cid (unpin env cid))
     (trace (commitToIPFS env (final (commitToIPFS env s)))).
Proof.
  intros H Hne.
  destruct (commit_success_inv s cid H) as (s1 & tr0 & Hrun & _ & _ & _ & Hfinal).
  pose proof (ensureInitialized_handle env s s1 tr0 Hrun) as Hhandle.
  set (s2 := final (commitToIPFS env s)) in *.
  assert (Hp2 : exists p, pinata s2 = Some p).
  { rewrite Hfinal. simpl. destruct (pinata s1); [eauto|contradiction]. }
  destruct Hp2 as (p & Hp2).
  assert (Hc2 : currentCID s2 = Some cid) by (rewrite Hfinal; reflexivity).
  pose proof (commit_store_log env s2 cid) as Hlog.
  rewrite (ensureInitialized_connected env s2 p Hp2) in Hlog.
  specialize (Hlog eq_refl Hc2 Hne).
  assert (Hin : In (EvUnpin cid (unpin env cid))
                  (List.filter is_store_event (trace (commitToIPFS env s2)))).
  { rewrite Hlog. left. reflexivity. }
  apply List.filter_In in Hin. apply Hin.
Qed.

Lemma upload_in_commit_trace_full s req res :
  In (EvUpload req res) (trace (commitToIPFS env s)) ->
  req = commit_request env s /\ res = upload_file env (commit_request env s).
Proof.
  destruct (commit_cases env s) as (b & s1 & tr0 & _ & Hsame & Hq & ->).
  rewrite <- (commit_request_ext env s s1 Hsame).
  destruct b.
  - unfold commit_body_result.
    destruct (upload_file env (commit_request env s1)) as [c|] eqn:Hup;
      [destruct (config_update_ok env POINTER_KEY)|]; cbn [prepend trace];
      intros He;
      apply (in_commit_trace _ _ _ _ _ Hq) in He as [He|[(old & _ & _ & He)|He]];
      try discriminate;
      simpl in He; repeat (destruct He as [He|He]; [try discriminate|]);
      try contradiction; try (injection He as <- <-; split; reflexivity).
  - cbn [trace]. intros He. rewrite in_app_iff in He.
    destruct He as [He|[He|[]]]; [|discriminate].
    pose proof (proj1 (List.Forall_forall _ _) Hq _ He) as Habs. discriminate.
Qed.

Lemma upload_in_commit_trace s req res :
  In (EvUpload req res) (trace (commitToIPFS env s)) -> req = commit_request env s.
Proof. intros H. apply (upload_in_commit_trace_full s req res H). Qed.

(** X28. What a commit uploads: the body is the JSON of the snapshot
    that [serializeWorkspaceState] returns, the metadata carries that
    snapshot's version and timestamp and the workspace id of the
    service, and the user email of the metadata is the configured
    [cline.mcxProtocol.email] when it is non-empty and never the empty
    string. *)
Theorem commit_uploads_the_snapshot s req res :
  In (EvUpload req res) (trace (commitToIPFS env s)) ->
  (exists ws,
     outcome (serializeWorkspaceState env s) = Ok ws
     /\ up_body req = JSON_stringify ws
     /\ up_version req = version ws
     /\ up_timestamp req = timestamp ws)
  /\ up_workspaceId req = workspaceId s
  /\ up_userEmail req <> ""
  /\ (forall email,
        settings s !! "cline.mcxProtocol.email" = Some email -> email <> "" ->
        up_userEmail req = email)
  /\ res = upload_file env req.
Proof.
  intros H. destruct (upload_in_commit_trace_full s req res H) as [-> ->].
  split; [|split; [|split; [|split]]].
  - rewrite serializeWorkspaceState_run. eexists. repeat split.
  - reflexivity.
  - cbn [commit_request up_userEmail]. unfold getUserProfile_email.
    destruct (settings s !! "cline.mcxProtocol.email") as [e|]; cbn; [|discriminate].
    destruct (String.eqb_spec e ""); cbn; [discriminate|].
    destruct (String.eqb_spec e ""); [contradiction|assumption].
  - intros email He Hne. cbn [commit_request up_userEmail]. unfold getUserProfile_email.
    rewrite He. apply String.eqb_neq in Hne. cbn. rewrite Hne. cbn. rewrite Hne. reflexivity.
  - reflexivity.
Qed.
End CommitMore.

Lemma commit_success_moves_pointer_witness :
  upload_file working_env (commit_request working_env fresh_state) = Some "Qm2"
  /\ currentCID (final (commitToIPFS working_env fresh_state)) = Some "Qm2"
  /\ settings (final (commitToIPFS working_env fresh_state))
     = <[POINTER_KEY := "Qm2"]> (settings fresh_state)
  /\ ("Qm2" <> "" -> getCurrentCID (final (commitToIPFS working_env fresh_state)) = Some "Qm2").
Proof.
  apply (commit_success_moves_pointer working_env fresh_state "Qm2").
  vm_compute. reflexivity.
Defined.


Lemma commit_pointer_write_failure_witness :
  outcome (commitToIPFS readonly_settings_env fresh_state) = Ok None
  /\ currentCID (final (commitToIPFS readonly_settings_env fresh_state)) = Some "Qm2"
  /\ settings (final (commitToIPFS readonly_settings_env fresh_state))
     = settings fresh_state.
Proof.
  apply (commit_pointer_write_failure readonly_settings_env fresh_state "Qm2").
  - vm_compute. reflexivity.
  - vm_compute. reflexivity.
  - reflexivity.
Defined.

Lemma unpin_failure_is_swallowed_witness :
  outcome (commitToIPFS unpin_failure_env committed_state) = Ok (Some "Qm2")
  /\ (exists msg,
        In (EvConsole Warn msg) (trace (commitToIPFS unpin_failure_env committed_state)))
  /\ forall l msg,
       In (EvShowMessage l msg) (trace (commitToIPFS unpin_failure_env committed_state)) ->
       l <> Error.
Proof.
  apply (unpin_failure_is_swallowed unpin_failure_env committed_state "QmOld" "Qm2").
  - vm_compute. reflexivity.
  - reflexivity.
  - discriminate.
  - reflexivity.
  - vm_compute. reflexivity.
  - reflexivity.
Defined.

Lemma commit_uploads_the_snapshot_witness :
  up_workspaceId (commit_request working_env fresh_state) = workspaceId fresh_state
  /\ up_userEmail (commit_request working_env fresh_state) <> "".
Proof.
  destruct (commit_uploads_the_snapshot working_env fresh_state
              (commit_request working_env fresh_state) (Some "Qm2")) as (_ & H1 & H2 & _).
  - vm_compute. do 2 right. left. reflexivity.
  - split; [exact H1|exact H2].
Defined.

Lemma next_commit_unpins_previous_witness :
  In (EvUnpin "Qm2" (unpin working_env "Qm2"))
     (trace (commitToIPFS working_env (final (commitToIPFS working_env fresh_state)))).
Proof.
  apply (next_commit_unpins_previous working_env fresh_state "Qm2").
  - vm_compute. reflexivity.
  - discriminate.
Defined.


(** ** More on the snapshot *)

Section ObjMore.
Context {V : Type}.
Implicit Types (o : list (string * V)).

Lemma obj_set_NoDup k v o :
  List.NoDup (Object_keys o) -> List.NoDup (Object_keys (obj_set k v o)).
Proof.
  intros H.
  destruct (in_dec string_dec k (Object_keys o)) as [Hin|Hnin].
  - rewrite obj_set_keys_old by assumption. exact H.
  - rewrite obj_set_keys_new by assumption.
    apply List.NoDup_app; repeat split; auto.
    + repeat constructor. intros [].
    + intros x Hx [<-|[]]. contradiction.
Qed.

Lemma obj_assign_NoDup k v o :
  List.NoDup (Object_keys o) -> List.NoDup (Object_keys (obj_assign k v o)).
Proof.
  unfold obj_assign. destruct (String.eqb k "__proto__"); [auto|apply obj_set_NoDup].
Qed.

Lemma obj_get_set_same k v o : obj_get k (obj_set k v o) = Some v.
Proof.
  induction o as [|[k0 v0] o IH]; simpl; [rewrite String.eqb_refl; reflexivity|].
  destruct (String.eqb k0 k) eqn:E; simpl; rewrite E; auto.
Qed.

Lemma obj_get_set_other k k' v o : k' <> k -> obj_get k (obj_set k' v o) = obj_get k o.
Proof.
  intros Hne. induction o as [|[k0 v0] o IH]; simpl.
  - apply String.eqb_neq in Hne. rewrite Hne. reflexivity.
  - destruct (String.eqb k0 k') eqn:E; simpl.
    + apply String.eqb_eq in E. subst k0.
      apply String.eqb_neq in Hne. rewrite Hne. reflexivity.
    + destruct (String.eqb k0 k); auto.
Qed.
End ObjMore.

Section SnapshotMore.
Context (env : Env).

Lemma scan_fold_folders s uris : forall acc,
  snd (fold_left (scanStep env s) uris acc)
  = snd acc ++ map (asRelativePath env) (List.filter (is_folder env s) uris).
Proof.
  induction uris as [|u uris IH]; intros acc; simpl; [rewrite app_nil_r; reflexivity|].
  rewrite IH. unfold scanStep, is_folder.
  destruct (classify env s u); simpl; rewrite <- ?app_assoc; reflexivity.
Qed.

Lemma files_fold_NoDup s uris : forall f,
  List.NoDup (Object_keys f) -> List.NoDup (Object_keys (fold_left (fileStep env s) uris f)).
Proof.
  induction uris as [|u uris IH]; intros f H; simpl; [exact H|].
  apply IH. unfold fileStep. destruct (classify env s u); auto using obj_assign_NoDup.
Qed.

Lemma scanLog_warnings s uris :
  List.filter is_warning (flat_map (scanLog env s) uris) = flat_map (scanLog env s) uris
  /\ length (flat_map (scanLog env s) uris)
     = length (List.filter (is_unreadable env s) uris).
Proof.
  induction uris as [|u uris [IH1 IH2]]; simpl; [auto|].
  rewrite List.filter_app, IH1, length_app, IH2.
  unfold scanLog, is_unreadable. destruct (classify env s u); simpl; auto.
Qed.

Lemma scan_fold_count s uris : forall acc,
  length (fst (fold_left (scanStep env s) uris acc))
  + length (snd (fold_left (scanStep env s) uris acc))
  <= length (fst acc) + length (snd acc) + length uris.
Proof.
  induction uris as [|u uris IH]; intros acc; simpl; [lia|].
  etransitivity; [apply IH|]. unfold scanStep.
  destruct (classify env s u); simpl; rewrite ?length_app; simpl; try lia.
  pose proof (obj_assign_length_le (asRelativePath env u) text (fst acc)). lia.
Qed.

Lemma scanned_uris_length :
  length (scanned_uris env) <= FILE_CAP * length (workspaceFolders env).
Proof.
  unfold scanned_uris.
  induction (workspaceFolders env) as [|wf wfs IH]; cbn [flat_map length]; [lia|].
  rewrite length_app, length_take, Nat.mul_succ_r. lia.
Qed.

Lemma files_fold_last s uris k v : forall f,
  obj_get k f = Some v ->
  (forall u, In u uris -> asRelativePath env u = k -> is_eligible env s u = false) ->
  obj_get k (fold_left (fileStep env s) uris f) = Some v.
Proof.
  induction uris as [|u uris IH]; intros f Hf Hlast; simpl; [exact Hf|].
  apply IH; [|intros u' Hin; apply Hlast; right; exact Hin].
  unfold fileStep. destruct (classify env s u) eqn:Hc; auto.
  unfold obj_assign. destruct (String.eqb (asRelativePath env u) "__proto__"); [exact Hf|].
  destruct (string_dec (asRelativePath env u) k) as [Hk|Hk].
  - specialize (Hlast u (or_introl eq_refl) Hk). unfold is_eligible in Hlast.
    rewrite Hc in Hlast. discriminate.
  - rewrite obj_get_set_other by assumption. exact Hf.
Qed.

Lemma files_fold_no_proto s uris : forall f,
  ~ In "__proto__" (Object_keys f) ->
  ~ In "__proto__" (Object_keys (fold_left (fileStep env s) uris f)).
Proof.
  induction uris as [|u uris IH]; intros f Hf; simpl; [exact Hf|].
  apply IH. unfold fileStep. destruct (classify env s u); auto.
  unfold obj_assign.
  destruct (String.eqb_spec (asRelativePath env u) "__proto__") as [Hk|Hk]; [exact Hf|].
  intros Hin. apply in_map_iff in Hin as ([k v] & Hfst & Hin). simpl in Hfst. subst k.
  apply obj_set_in in Hin as [[Heq _]|Hin]; [congruence|].
  apply Hf. apply in_map_iff. exists ("__proto__", v). auto.
Qed.

Lemma snapshot_keys_NoDup s : List.NoDup (Object_keys (files (snapshot_of env s))).
Proof.
  unfold snapshot_of. cbn [files]. rewrite scan_fold_files.
  apply files_fold_NoDup. constructor.
Qed.

(** X8. Serialization only reads: it never raises, leaves the service
    and the disk as they were, and everything it logs is a console
    warning, one for each scanned URI whose [stat] or [readFile] failed. *)
Theorem serialization_only_reads s :
  final (serializeWorkspaceState env s) = s
  /\ (exists ws, outcome (serializeWorkspaceState env s) = Ok ws)
  /\ List.filter is_warning (trace (serializeWorkspaceState env s))
     = trace (serializeWorkspaceState env s)
  /\ length (trace (serializeWorkspaceState env s)) = length (skipped_uris env s).
Proof.
  rewrite serializeWorkspaceState_run. cbn [final outcome trace].
  destruct (scanLog_warnings s (scanned_uris env)) as [H1 H2]. eauto.
Qed.

(** X9. The cap is per workspace folder: a snapshot holds at most 100
    entries, files and folders together, for every folder of the
    workspace. *)
Theorem snapshot_size_bound s :
  exists ws,
    outcome (serializeWorkspaceState env s) = Ok ws
    /\ length (files ws) + length (folders ws)
       <= FILE_CAP * length (workspaceFolders env).
Proof.
  rewrite serializeWorkspaceState_run. eexists. split; [reflexivity|].
  unfold snapshot_of. cbn [files folders].
  etransitivity; [apply scan_fold_count|]. simpl. apply scanned_uris_length.
Qed.

(** X10. The [folders] list of a snapshot holds the relative paths of
    exactly the directories among the first 100 URIs of every workspace
    folder, in scan order, duplicates included. *)
Theorem snapshot_folders s :
  exists ws,
    outcome (serializeWorkspaceState env s) = Ok ws
    /\ folders ws
       = map (asRelativePath env)
           (List.filter (is_folder env s)
              (flat_map (fun wf => take FILE_CAP (findFiles env wf))
                 (workspaceFolders env))).
Proof.
  rewrite serializeWorkspaceState_run. eexists. split; [reflexivity|].
  unfold snapshot_of. cbn [folders]. rewrite scan_fold_folders. reflexivity.
Qed.

(** X11. Which text files a snapshot holds.  A readable text file
    among the scanned URIs is stored under its relative path with its
    decoded content when that path is not [__proto__] and no later
    scanned text file has the same relative path: of several text files
    with one relative path the last one wins.  No snapshot has the key
    [__proto__]: a file of that relative path is never stored. *)
Theorem last_text_file_wins s :
  exists ws,
    outcome (serializeWorkspaceState env s) = Ok ws
    /\ ~ In "__proto__" (Object_keys (files ws))
    /\ forall pre u post bytes,
         flat_map (fun wf => take FILE_CAP (findFiles env wf)) (workspaceFolders env)
         = pre ++ u :: post ->
         io_denied env OpStat u = false ->
         fs s !! u = Some (File bytes) ->
         io_denied env OpRead u = false ->
         isTextFile (utf8_toString env bytes) = true ->
         asRelativePath env u <> "__proto__" ->
         (forall u', In u' post -> asRelativePath env u' = asRelativePath env u ->
                     is_eligible env s u' = false) ->
         obj_get (asRelativePath env u) (files ws) = Some (utf8_toString env bytes).
Proof.
  rewrite serializeWorkspaceState_run. eexists. split; [reflexivity|].
  unfold snapshot_of, scanned_uris. cbn [files]. rewrite scan_fold_files. cbn [fst].
  split; [apply files_fold_no_proto; intros []|].
  intros pre u post bytes Huris Hstat Hfile Hread Htext Hkey Hlast.
  rewrite Huris, fold_left_app. cbn [fold_left].
  apply files_fold_last; [|exact Hlast].
  unfold fileStep at 1, classify. rewrite Hstat, Hfile, Hread, Htext.
  apply String.eqb_neq in Hkey. rewrite (obj_assign_stored _ _ _ Hkey).
  apply obj_get_set_same.
Qed.
End SnapshotMore.

Lemma last_text_file_wins_witness :
  exists ws,
    outcome (serializeWorkspaceState collision_env collision_state) = Ok ws
    /\ ~ In "__proto__" (Object_keys (files ws))
    /\ obj_get "a.txt" (files ws) = Some "other".
Proof.
  destruct (last_text_file_wins collision_env collision_state) as (ws & Hrun & Hkey & Hlast).
  exists ws. split; [exact Hrun|]. split; [exact Hkey|].
  apply (Hlast ["/ws/a.txt"] "/wt/a.txt" ["/wu/a.txt"; "/ws/__proto__"] "other");
    try reflexivity.
  - discriminate.
  - intros u' [<-|[<-|[]]] Hrel; [reflexivity|]. vm_compute in Hrel. discriminate.
Defined.


(** ** More on restore *)

Section LoadMore.
Context (env : Env).

Lemma loadFromIPFS_total cid s : exists r, outcome (loadFromIPFS env cid s) = Ok r.
Proof.
  destruct (load_cases env cid s) as (b & s1 & tr0 & _ & _ & _ & ->).
  destruct b; [|cbn; eauto].
  unfold load_body_result.
  destruct (gateways_get env cid) as [doc|]; [|cbn; eauto].
  destruct (js_prop doc "version") as [v|]; [|cbn; eauto].
  destruct (js_prop doc "workspaceId") as [w|]; [|cbn; eauto].
  destruct (negb (js_truthy v) || negb (js_truthy w)); [cbn; eauto|].
  destruct (config_update_ok env POINTER_KEY); cbn; eauto.
Qed.

End LoadMore.


Section SyncMore.
Context (env : Env).

Lemma try_createDirectory_keeps_files uri s u c :
  fs s !! u = Some (File c) ->
  fs (final (try_catch (fs_createDirectory env uri) (fun _ => ret tt) s)) !! u
  = Some (File c).
Proof.
  intros H. unfold try_catch, fs_createDirectory.
  destruct (io_denied env OpMkdir uri); [exact H|].
  destruct (fs s !! uri) as [[bytes| | |]|] eqn:Hnode;
    cbn [bind emit throw modify prepend final set_fs fs]; try exact H.
  - rewrite lookup_insert_ne; [exact H|]. intros ->. congruence.
  - rewrite lookup_insert_ne; [exact H|]. intros ->. congruence.
Qed.

Lemma restoreFile_final root kv s :
  write_allowed env root kv = true ->
  exists s1 tr,
    (forall u c, fs s !! u = Some (File c) -> fs s1 !! u = Some (File c))
    /\ restoreFile env root tt (text_entry kv) s
       = mkResult (Ok tt)
           (set_fs (<[joinPath env root (fst kv) := File (snd kv)]> (fs s1)) s1) tr.
Proof.
  intros Hok. unfold write_allowed in Hok. apply negb_true_iff in Hok.
  unfold restoreFile. unfold bind at 1.
  pose proof (try_createDirectory_keeps_files
                (joinPath env (joinPath env root (fst (text_entry kv))) "..") s) as Hkeep.
  destruct (try_createDirectory_run env
              (joinPath env (joinPath env root (fst (text_entry kv))) "..") s)
    as (s1 & tr1 & Hrun & _).
  rewrite Hrun in *. cbn [final] in Hkeep.
  exists s1. eexists. split; [exact Hkeep|].
  unfold bind at 1. cbn [text_entry fst snd Buffer_from ret prepend app].
  unfold fs_writeFile. rewrite Hok. reflexivity.
Qed.

Lemma restoreFile_fs root kv s :
  write_allowed env root kv = true ->
  fs (final (restoreFile env root tt (text_entry kv) s)) !! joinPath env root (fst kv)
  = Some (File (snd kv))
  /\ (forall u c, u <> joinPath env root (fst kv) ->
        fs s !! u = Some (File c) ->
        fs (final (restoreFile env root tt (text_entry kv) s)) !! u = Some (File c)).
Proof.
  intros Hok. destruct (restoreFile_final root kv s Hok) as (s1 & tr & Hkeep & ->).
  cbn [final set_fs fs]. split.
  - apply lookup_insert_eq.
  - intros u c Hne Hu. rewrite lookup_insert_ne by congruence. auto.
Qed.

Lemma restore_loop_content root es : forall s u c,
  forallb (write_allowed env root) es = true ->
  (fs s !! u = Some (File c)
   \/ exists p, In (p, c) es /\ joinPath env root p = u) ->
  (forall p' c', In (p', c') es -> joinPath env root p' = u -> c' = c) ->
  fs (final (for_of (map text_entry es) (restoreFile env root) tt s)) !! u = Some (File c).
Proof.
  induction es as [|kv es IH]; intros s u c Hall Hsrc Hagree; simpl in *.
  - destruct Hsrc as [H|(p & [] & _)]. exact H.
  - apply andb_true_iff in Hall as [Hkv Hall].
    unfold bind at 1.
    destruct (restoreFile_fs root kv s Hkv) as [Hown Hother].
    destruct (restoreFile_run env root kv s) as (s1 & tr1 & Hrun & _).
    rewrite Hrun in *. rewrite Hkv. cbn [final] in Hown, Hother.
    assert (Hgoal : fs (final (for_of (map text_entry es) (restoreFile env root) tt s1)) !! u
                    = Some (File c)).
    { apply IH; [exact Hall| |intros p' c' Hin; apply Hagree; right; exact Hin].
      destruct (string_dec u (joinPath env root (fst kv))) as [Hu|Hu].
      - left. rewrite Hu, Hown. f_equal. f_equal.
        apply (Hagree (fst kv) (snd kv)); [left; destruct kv; reflexivity|congruence].
      - destruct Hsrc as [H|(p & [Hp|Hp] & Hj)].
        + left. apply Hother; assumption.
        + subst kv. simpl in Hu. congruence.
        + right. eauto. }
    destruct (for_of (map text_entry es) (restoreFile env root) tt s1) as [o s2 tr2].
    cbn [prepend final] in *. destruct o; exact Hgoal.
Qed.
End SyncMore.


(** ** Enumeration order of dictionaries *)

Section EntriesFacts.
Context {V W : Type} (f : V -> W).

Lemma index_entries_map_values o :
  index_entries (map_values f o)
  = map (fun e => (fst e, (fst (snd e), f (snd (snd e))))) (index_entries o).
Proof.
  unfold index_entries, map_values.
  induction o as [|[k v] o IH]; [reflexivity|].
  cbn. destruct (array_index k); cbn; f_equal; exact IH.
Qed.

Lemma insert_by_index_map_values e l :
  insert_by_index (fst e, (fst (snd e), f (snd (snd e))))
    (map (fun e => (fst e, (fst (snd e), f (snd (snd e))))) l)
  = map (fun e => (fst e, (fst (snd e), f (snd (snd e))))) (insert_by_index e l).
Proof.
  induction l as [|e' l IH]; simpl; [reflexivity|].
  destruct (fst e <? fst e')%N; simpl; [reflexivity|]. rewrite IH. reflexivity.
Qed.

Lemma sort_by_index_map_values l :
  foldr insert_by_index []
    (map (fun e => (fst e, (fst (snd e), f (snd (snd e))))) l)
  = map (fun e : N * (string * V) => (fst e, (fst (snd e), f (snd (snd e)))))
      (foldr insert_by_index [] l).
Proof.
  induction l as [|e l IH]; [reflexivity|].
  cbn [map foldr]. rewrite IH. apply insert_by_index_map_values.
Qed.

Lemma filter_map_values o :
  filter (fun kv : string * W => array_index (fst kv) = None) (map_values f o)
  = map_values f (filter (fun kv : string * V => array_index (fst kv) = None) o).
Proof.
  unfold map_values. induction o as [|[k v] o IH]; [reflexivity|].
  cbn [map]. rewrite !filter_cons. cbn [fst snd].
  destruct (decide (array_index k = None)); cbn [map fst snd]; rewrite IH; reflexivity.
Qed.

Lemma Object_entries_map_values o :
  Object_entries (map_values f o) = map_values f (Object_entries o).
Proof.
  unfold Object_entries.
  rewrite index_entries_map_values, sort_by_index_map_values, filter_map_values.
  unfold map_values. rewrite map_app, !map_map. reflexivity.
Qed.
End EntriesFacts.

Section EntriesIn.
Context {V : Type}.

Lemma insert_by_index_In (e x : N * (string * V)) l :
  In x (insert_by_index e l) <-> x = e \/ In x l.
Proof.
  induction l as [|e' l IH]; simpl; [intuition|].
  destruct (fst e <? fst e')%N; simpl; [intuition|]. rewrite IH. intuition.
Qed.

Lemma sort_by_index_In (x : N * (string * V)) l :
  In x (foldr insert_by_index [] l) <-> In x l.
Proof.
  induction l as [|e l IH]; simpl; [tauto|].
  rewrite insert_by_index_In, IH. intuition.
Qed.

Lemma index_entries_In (kv : string * V) o :
  In kv (map snd (index_entries o)) <-> In kv o /\ array_index (fst kv) <> None.
Proof.
  unfold index_entries. induction o as [|kv0 o IH]; simpl; [tauto|].
  destruct (array_index (fst kv0)) eqn:E; simpl; rewrite IH; split.
  - intros [<-|[H1 H2]]; [split; [auto|congruence]|auto].
  - intros [[<-|H1] H2]; auto.
  - intros [H1 H2]. auto.
  - intros [[<-|H1] H2]; [congruence|auto].
Qed.

Lemma Object_entries_In (kv : string * V) o : In kv (Object_entries o) <-> In kv o.
Proof.
  unfold Object_entries. rewrite in_app_iff.
  assert (H1 : In kv (map snd (foldr insert_by_index [] (index_entries o)))
               <-> In kv (map snd (index_entries o))).
  { rewrite !in_map_iff. split; intros (x & Hx & Hin); exists x; split; auto;
      apply sort_by_index_In; assumption. }
  assert (H2 : In kv (filter (fun kv : string * V => array_index (fst kv) = None) o)
               <-> In kv o /\ array_index (fst kv) = None).
  { rewrite <- !list_elem_of_In, list_elem_of_filter. tauto. }
  rewrite H1, H2, index_entries_In.
  destruct (array_index (fst kv)); intuition congruence.
Qed.
End EntriesIn.


(** ** Materialization, file by file *)

(** Runs [syncFromIPFS] up to the loop over the file entries, naming the
    state the folder loop ends in. *)
Ltac run_sync_to_files env Hwf Hfolders Hfiles Hentries root fl s s1 Heq :=
  unfold syncFromIPFS, try_catch; unfold bind at 1; cbn [showMessage emit prepend];
  rewrite Hwf; unfold bind at 1; unfold bind at 1; unfold js_get at 1; rewrite Hfolders;
  cbn [ret prepend app]; unfold bind at 1; cbn [js_iterate ret prepend app];
  unfold bind at 1;
  let tr1 := fresh "tr1" in
  let Hf1 := fresh "Hf1" in
  destruct (createFolder_loop env root fl s) as (s1 & tr1 & Heq & Hf1); rewrite Heq;
  cbn [prepend]; unfold bind at 1; unfold js_get at 1; rewrite Hfiles;
  cbn [ret prepend app]; unfold bind at 1; cbn [js_Object_entries ret prepend app];
  rewrite Hentries.

Section SyncContent.
Context (env : Env).

Lemma createFolder_loop_keeps_files root fl : forall s u c,
  fs s !! u = Some (File c) ->
  fs (final (for_of (map JStr fl) (createFolder env root) tt s)) !! u = Some (File c).
Proof.
  induction fl as [|f fl IH]; intros s u c H; simpl; [exact H|].
  unfold bind at 1. unfold createFolder at 1. unfold bind at 1.
  cbn [Uri_joinPath ret prepend].
  pose proof (try_createDirectory_keeps_files env (joinPath env root f) s u c H) as Hkeep.
  destruct (try_createDirectory_run env (joinPath env root f) s) as (s1 & tr1 & Hrun & _).
  rewrite Hrun in *. cbn [final prepend app] in *.
  specialize (IH s1 u c Hkeep).
  destruct (for_of (map JStr fl) (createFolder env root) tt s1) as [[[]|e] s2 tr2];
    exact IH.
Qed.

Lemma restore_files_on_disk doc s wf rest fl props es :
  workspaceFolders env = wf :: rest ->
  js_prop doc "folders" = Some (JArr (map JStr fl)) ->
  js_prop doc "files" = Some (JObj props) ->
  Object_entries props = map text_entry es ->
  forallb (write_allowed env (wf_uri wf)) es = true ->
  outcome (syncFromIPFS env doc s) = Ok true
  /\ (forall p c,
        In (p, c) es ->
        (forall p' c', In (p', c') es ->
                       joinPath env (wf_uri wf) p' = joinPath env (wf_uri wf) p -> c' = c) ->
        fs (final (syncFromIPFS env doc s)) !! joinPath env (wf_uri wf) p = Some (File c))
  /\ (forall u c,
        fs s !! u = Some (File c) ->
        (forall p', In p' (map fst es) -> joinPath env (wf_uri wf) p' <> u) ->
        fs (final (syncFromIPFS env doc s)) !! u = Some (File c)).
Proof.
  intros Hwf Hfolders Hfiles Hentries Hall.
  assert (Hrun : exists s1 tr,
            (forall u c, fs s !! u = Some (File c) -> fs s1 !! u = Some (File c))
            /\ syncFromIPFS env doc s
               = mkResult (Ok true)
                   (final (for_of (map text_entry es) (restoreFile env (wf_uri wf)) tt s1))
                   tr).
  { pose proof (createFolder_loop_keeps_files (wf_uri wf) fl s) as Hkeep.
    run_sync_to_files env Hwf Hfolders Hfiles Hentries (wf_uri wf) fl s s1 Heq.
    rewrite Heq in Hkeep. cbn [final] in Hkeep.
    destruct (restore_loop_all env (wf_uri wf) es s1 Hall) as (s2 & tr2 & Heq2 & _).
    exists s1. eexists. split; [exact Hkeep|]. rewrite Heq2.
    cbn [prepend final bind showMessage emit ret app]. reflexivity. }
  destruct Hrun as (s1 & tr & Hkeep & ->). cbn [outcome final].
  split; [reflexivity|]. split.
  - intros p c Hin Hagree.
    apply restore_loop_content; [exact Hall| |exact Hagree]. right. eauto.
  - intros u c Hu Hfresh.
    apply restore_loop_content; [exact Hall|left; auto|].
    intros p' c' Hin Hj. exfalso. apply (Hfresh p'); [|exact Hj].
    apply in_map_iff. exists (p', c'). auto.
Qed.

(** X13. When every write is allowed, materialization returns [true]
    and each file entry of the snapshot is on disk, with the content of
    the entry, at the URI that [Uri.joinPath] gives for the URI of the
    first workspace folder and the key of the entry, provided that
    every entry which joins to the same URI has the same content.  This
    holds for any key: the code does not check that the joined URI lies
    inside the folder.  A file at a URI that no entry joins to keeps its
    content: nothing is deleted. *)
Theorem restore_puts_files_on_disk doc s wf rest fl props es :
  workspaceFolders env = wf :: rest ->
  js_prop doc "folders" = Some (JArr (map JStr fl)) ->
  js_prop doc "files" = Some (JObj props) ->
  Object_entries props = map text_entry es ->
  forallb (write_allowed env (wf_uri wf)) es = true ->
  outcome (syncFromIPFS env doc s) = Ok true
  /\ (forall p c,
        In (p, c) es ->
        (forall p' c', In (p', c') es ->
                       joinPath env (wf_uri wf) p' = joinPath env (wf_uri wf) p -> c' = c) ->
        fs (final (syncFromIPFS env doc s)) !! joinPath env (wf_uri wf) p = Some (File c))
  /\ (forall u c,
        fs s !! u = Some (File c) ->
        (forall p', In p' (map fst es) -> joinPath env (wf_uri wf) p' <> u) ->
        fs (final (syncFromIPFS env doc s)) !! u = Some (File c)).
Proof. apply restore_files_on_disk. Qed.

(** X14. Materialization without a target: with no workspace folder
    open it reports success although nothing was written; a document
    whose [folders] property is missing makes it return [false] before
    any directory or file is touched. *)
Theorem restore_without_folder_or_list doc s :
  (workspaceFolders env = [] ->
     syncFromIPFS env doc s
     = mkResult (Ok true) s
         [EvShowMessage Info "Syncing workspace from IPFS...";
          EvShowMessage Info "Workspace synced successfully from IPFS!"])
  /\ (workspaceFolders env <> [] ->
      js_prop doc "folders" = Some JUndefined ->
      outcome (syncFromIPFS env doc s) = Ok false
      /\ final (syncFromIPFS env doc s) = s
      /\ List.filter is_fs_event (trace (syncFromIPFS env doc s)) = []).
Proof.
  split.
  - intros Hwf. unfold syncFromIPFS, try_catch, bind. rewrite Hwf. reflexivity.
  - intros Hwf Hfolders. destruct (workspaceFolders env) as [|wf rest] eqn:E; [congruence|].
    assert (Hrun : exists tr,
              syncFromIPFS env doc s = mkResult (Ok false) s tr
              /\ List.filter is_fs_event tr = []).
    { unfold syncFromIPFS, try_catch. unfold bind at 1. cbn [showMessage emit prepend].
      rewrite E. unfold bind at 1. unfold bind at 1. unfold js_get at 1. rewrite Hfolders.
      cbn [ret prepend app]. unfold bind at 1. cbn [js_iterate throw prepend app].
      eexists. split; reflexivity. }
    destruct Hrun as (tr & -> & Hf). auto.
Qed.
End SyncContent.

Lemma restore_puts_files_on_disk_witness :
  outcome (syncFromIPFS (sync_env snapshot_doc nothing_denied) snapshot_doc collision_state)
  = Ok true
  /\ fs (final (syncFromIPFS (sync_env snapshot_doc nothing_denied) snapshot_doc
                  collision_state)) !! "/ws/a.txt" = Some (File "hello")
  /\ fs (final (syncFromIPFS (sync_env snapshot_doc nothing_denied) snapshot_doc
                  collision_state)) !! "/wt/a.txt" = Some (File "other").
Proof.
  destruct (restore_puts_files_on_disk (sync_env snapshot_doc nothing_denied) snapshot_doc
              collision_state ws_folder [] ["src"]
              [("a.txt", JStr "hello"); ("b.txt", JStr "world")] snapshot_entries
              eq_refl eq_refl eq_refl eq_refl eq_refl) as (Hok & Hfiles & Hkept).
  split; [exact Hok|]. split.
  - apply (Hfiles "a.txt" "hello"); [left; reflexivity|].
    intros p' c' [H|[H|[]]] Hj; injection H as <- <-; [reflexivity|].
    vm_compute in Hj. discriminate.
  - apply Hkept; [reflexivity|].
    intros p' [<-|[<-|[]]] Hj; vm_compute in Hj; discriminate.
Defined.

Lemma restore_without_folder_or_list_witness :
  syncFromIPFS no_folder_env snapshot_doc fresh_state
  = mkResult (Ok true) fresh_state
      [EvShowMessage Info "Syncing workspace from IPFS...";
       EvShowMessage Info "Workspace synced successfully from IPFS!"]
  /\ outcome (syncFromIPFS working_env (JObj []) fresh_state) = Ok false
  /\ final (syncFromIPFS working_env (JObj []) fresh_state) = fresh_state.
Proof.
  split.
  - apply (proj1 (restore_without_folder_or_list no_folder_env snapshot_doc fresh_state)).
    reflexivity.
  - destruct (proj2 (restore_without_folder_or_list working_env (JObj []) fresh_state))
      as (Hout & Hfinal & _); [discriminate|reflexivity|].
    split; [exact Hout|exact Hfinal].
Defined.

Section RoundTrip.
Context (env : Env).

Lemma NoDup_keys_functional {V} (o : list (string * V)) k v v' :
  List.NoDup (Object_keys o) -> In (k, v) o -> In (k, v') o -> v = v'.
Proof.
  unfold Object_keys. induction o as [|[k0 v0] o IH]; simpl; [tauto|].
  intros Hnd. inversion Hnd as [|? ? Hnotin Hnd']; subst.
  intros [H1|H1] [H2|H2].
  - congruence.
  - injection H1 as -> ->. exfalso. apply Hnotin.
    apply in_map_iff. exists (k, v'). auto.
  - injection H2 as -> ->. exfalso. apply Hnotin.
    apply in_map_iff. exists (k, v). auto.
  - eauto.
Qed.

(** X15. Round trip: the document a commit uploads can be materialized
    again.  When writes under the first workspace folder are allowed and
    distinct relative paths join to distinct URIs, syncing the uploaded
    document returns [true] and puts every file of the serialized
    snapshot on disk with the content it was serialized with, whatever
    the disk held before. *)
Theorem snapshot_round_trip s sd wf rest req res ws :
  In (EvUpload req res) (trace (commitToIPFS env s)) ->
  outcome (serializeWorkspaceState env s) = Ok ws ->
  workspaceFolders env = wf :: rest ->
  (forall p, In p (Object_keys (files ws)) ->
             io_denied env OpWrite (joinPath env (wf_uri wf) p) = false) ->
  (forall p p', In p (Object_keys (files ws)) ->
                In p' (Object_keys (files ws)) ->
                joinPath env (wf_uri wf) p' = joinPath env (wf_uri wf) p -> p' = p) ->
  outcome (syncFromIPFS env (up_body req) sd) = Ok true
  /\ forall p c,
       In (p, c) (files ws) ->
       fs (final (syncFromIPFS env (up_body req) sd))
         !! joinPath env (wf_uri wf) p = Some (File c).
Proof.
  intros Hup Hser Hwf Hallowed Hinj.
  rewrite (upload_in_commit_trace env s req res Hup).
  rewrite serializeWorkspaceState_run in Hser. injection Hser as <-.
  set (ws := snapshot_of env s) in *.
  set (es := Object_entries (Object_entries (files ws))).
  assert (Hes : forall kv, In kv es <-> In kv (files ws)).
  { intros kv. unfold es. rewrite !Object_entries_In. tauto. }
  assert (Hkey : forall p c, In (p, c) (files ws) -> In p (Object_keys (files ws))).
  { intros p c Hin. apply in_map_iff. exists (p, c). auto. }
  destruct (restore_files_on_disk env (up_body (commit_request env s)) sd wf rest
              (folders ws)
              (map text_entry (Object_entries (files ws))) es Hwf eq_refl eq_refl)
    as (Hok & Hfiles & _).
  - apply (Object_entries_map_values JStr).
  - apply forallb_forall. intros [p c] Hin. apply Hes in Hin.
    unfold write_allowed. simpl. rewrite (Hallowed p (Hkey p c Hin)). reflexivity.
  - split; [exact Hok|]. intros p c Hin. apply Hfiles; [apply Hes; exact Hin|].
    intros p' c' Hin' Hj. apply Hes in Hin'.
    assert (p' = p) by (apply Hinj; eauto).
    subst p'. apply (NoDup_keys_functional (files ws) p); auto.
    apply snapshot_keys_NoDup.
Qed.
End RoundTrip.

Lemma snapshot_round_trip_witness :
  outcome (syncFromIPFS working_env (up_body (commit_request working_env fresh_state))
             empty_root_state) = Ok true
  /\ fs (final (syncFromIPFS working_env (up_body (commit_request working_env fresh_state))
                  empty_root_state)) !! "/ws/a.txt" = Some (File "hello").
Proof.
  destruct (snapshot_round_trip working_env fresh_state empty_root_state ws_folder []
              (commit_request working_env fresh_state) (Some "Qm2")
              (snapshot_of working_env fresh_state)) as (Hok & Hfiles).
  - vm_compute. do 2 right. left. reflexivity.
  - vm_compute. reflexivity.
  - reflexivity.
  - intros p Hin. reflexivity.
  - intros p p' Hp Hp' Hj. vm_compute in Hp, Hp'.
    destruct Hp as [<-|[<-|[]]], Hp' as [<-|[<-|[]]]; try reflexivity;
      vm_compute in Hj; discriminate.
  - split; [exact Hok|]. apply (Hfiles "a.txt" "hello"). vm_compute. left. reflexivity.
Defined.


(** ** The service and its commands as a whole *)

Section WholeService.
Context (env : Env).

(** X16. What a commit uploads passes the validation of a restore: a
    connected service that fetches the uploaded document and can write
    the pointer setting gets the document back from [loadFromIPFS],
    except when the committing service had the empty string as its
    workspace id, in which case the restore rejects the document. *)
Theorem committed_snapshot_loads s req res env' sd cid :
  In (EvUpload req res) (trace (commitToIPFS env s)) ->
  outcome (ensureInitialized env' sd) = Ok true ->
  gateways_get env' cid = Some (up_body req) ->
  config_update_ok env' POINTER_KEY = true ->
  outcome (loadFromIPFS env' cid sd)
  = if String.eqb (workspaceId s) "" then Ok None else Ok (Some (up_body req)).
Proof.
  intros Hup Hinit Hget Hcfg.
  rewrite (upload_in_commit_trace env s req res Hup) in *.
  destruct (load_cases env' cid sd) as (b & s1 & tr0 & Hrun & _ & _ & ->).
  rewrite Hrun in Hinit. injection Hinit as ->.
  destruct (String.eqb (workspaceId s) "") eqn:E.
  - destruct (load_body_invalid env' cid _ s1 Hget) as (msg & -> & _); [|reflexivity].
    unfold passes_validation. cbn. rewrite E. reflexivity.
  - rewrite (load_body_valid env' cid _ s1 Hget); [reflexivity| |exact Hcfg].
    unfold passes_validation. cbn. rewrite E. reflexivity.
Qed.

Lemma commitToIPFS_total s : exists r, outcome (commitToIPFS env s) = Ok r.
Proof.
  destruct (commit_cases env s) as (b & s1 & tr0 & _ & _ & _ & ->).
  destruct b; [|cbn; eauto].
  unfold commit_body_result.
  destruct (upload_file env (commit_request env s1)) as [c|];
    [destruct (config_update_ok env POINTER_KEY)|]; cbn [prepend outcome]; eauto.
Qed.

(** X17. Nothing is raised to the caller: [commitToIPFS], [loadFromIPFS]
    and [syncFromIPFS] always return a value, and both command handlers
    always complete, in every environment and from every state. *)
Theorem nothing_is_raised s :
  (exists r, outcome (commitToIPFS env s) = Ok r)
  /\ (forall cid, exists r, outcome (loadFromIPFS env cid s) = Ok r)
  /\ (forall doc, exists r, outcome (syncFromIPFS env doc s) = Ok r)
  /\ outcome (PluginIPFSCommit env s) = Ok tt
  /\ outcome (PluginIPFSSync env s) = Ok tt.
Proof.
  split; [apply commitToIPFS_total|]. split; [intros; apply loadFromIPFS_total|].
  split; [intros doc; destruct (syncFromIPFS_total env doc s) as (b & s' & tr & ->);
          cbn; eauto|].
  split.
  - unfold PluginIPFSCommit, try_catch.
    match goal with |- context [match ?m s with _ => _ end] =>
      destruct (m s) as [[[]|e] s' tr] end; reflexivity.
  - unfold PluginIPFSSync, try_catch.
    match goal with |- context [match ?m s with _ => _ end] =>
      destruct (m s) as [[[]|e] s' tr] end; reflexivity.
Qed.


(** X19. The sync command with a folder open but no ContentId entered
    (the input box dismissed or left empty) ends silently: no gateway
    request, no message, no change to settings or disk. *)
Theorem sync_command_without_cid s wf rest :
  workspaceFolders env = wf :: rest ->
  str_truthy (showInputBox env) = false ->
  PluginIPFSSync env s = mkResult (Ok tt) (fresh_service wf s) [].
Proof.
  intros Hwf Hinput. unfold PluginIPFSSync, try_catch. rewrite Hwf.
  unfold bind at 1. cbn [new_PinataService modify prepend].
  unfold bind at 1. cbn [gets prepend].
  rewrite handler_jwt_truthy, Hinput. reflexivity.
Qed.

(** X20. [getCurrentCID] prefers the in-memory pointer and falls back
    to the persisted setting; [setCurrentCID] makes it answer the new
    ContentId.  A service instance built anew reports the persisted
    ContentId as current, yet its commit never unpins it. *)
Theorem current_cid_lookup s :
  (forall cid, currentCID s = Some cid -> cid <> "" -> getCurrentCID s = Some cid)
  /\ (forall cid, cid <> "" -> getCurrentCID (final (setCurrentCID cid s)) = Some cid)
  /\ (forall wf old,
        settings s !! POINTER_KEY = Some old -> old <> "" ->
        getCurrentCID (fresh_service wf s) = Some old
        /\ forall ok, ~ In (EvUnpin old ok) (trace (commitToIPFS env (fresh_service wf s))))
  /\ (str_truthy (currentCID s) = false ->
      str_truthy (settings s !! POINTER_KEY) = false ->
      getCurrentCID s = None).
Proof.
  split; [|split; [|split]].
  - intros cid Hc Hne. unfold getCurrentCID. rewrite Hc. simpl.
    apply String.eqb_neq in Hne. rewrite Hne. reflexivity.
  - intros cid Hne. unfold getCurrentCID. simpl.
    apply String.eqb_neq in Hne. rewrite Hne. reflexivity.
  - intros wf old Hold Hne. split.
    + unfold getCurrentCID, fresh_service. cbn [currentCID settings str_truthy].
      rewrite Hold. simpl. apply String.eqb_neq in Hne. rewrite Hne. reflexivity.
    + intros ok Hin. apply commit_unpin_inv in Hin as [Hin _]. discriminate.
  - intros H1 H2. unfold getCurrentCID. rewrite H1, H2. reflexivity.
Qed.
End WholeService.

Lemma committed_snapshot_loads_witness :
  outcome (loadFromIPFS round_trip_env "Qm2" empty_root_state)
  = Ok (Some (up_body (commit_request working_env fresh_state))).
Proof.
  apply (committed_snapshot_loads working_env fresh_state
           (commit_request working_env fresh_state) (Some "Qm2")
           round_trip_env empty_root_state "Qm2").
  - vm_compute. do 2 right. left. reflexivity.
  - vm_compute. reflexivity.
  - reflexivity.
  - reflexivity.
Defined.


Lemma sync_command_without_cid_witness :
  PluginIPFSSync working_env committed_state
  = mkResult (Ok tt) (fresh_service ws_folder committed_state) [].
Proof.
  apply (sync_command_without_cid working_env committed_state ws_folder []);
    reflexivity.
Defined.

Lemma current_cid_lookup_witness :
  getCurrentCID committed_state = Some "QmOld"
  /\ getCurrentCID (fresh_service ws_folder persisted_state) = Some "QmOld"
  /\ getCurrentCID fresh_state = None.
Proof.
  destruct (current_cid_lookup working_env committed_state) as (H1 & _ & _ & _).
  destruct (current_cid_lookup working_env persisted_state) as (_ & _ & H3 & _).
  destruct (current_cid_lookup working_env fresh_state) as (_ & _ & _ & H4).
  split; [apply H1; [reflexivity|discriminate]|].
  split; [apply (H3 ws_folder "QmOld"); [reflexivity|discriminate]|].
  apply H4; reflexivity.
Defined.


(** ** The summary helpers *)

Section SummaryFacts.
Variable toLowerCase : string -> string.

Lemma string_length_append (a b : string) :
  String.length (a +:+ b) = String.length a + String.length b.
Proof. induction a as [|c a IH]; simpl; [reflexivity | rewrite IH; reflexivity]. Qed.

Lemma string_length_substring (n : nat) (s : string) :
  String.length (String.substring 0 n s) = Nat.min n (String.length s).
Proof.
  revert n. induction s as [|c s IH]; intros [|n]; simpl; try reflexivity.
  rewrite IH. reflexivity.
Qed.

Lemma substring_append_prefix (p q : string) :
  String.substring 0 (String.length p) (p +:+ q) = p.
Proof.
  induction p as [|c p IH]; simpl.
  - destruct q; reflexivity.
  - rewrite IH. reflexivity.
Qed.

Lemma truncateContent_length (content : string) (n : nat) :
  String.length (truncateContent content n) <= n + 3.
Proof.
  unfold truncateContent. destruct (Nat.leb_spec (String.length content) n) as [H|H].
  - lia.
  - rewrite string_length_append, string_length_substring. cbn. lia.
Qed.

(** X21. [truncateContent(content, n)] returns [content] itself when it
    has at most [n] characters; otherwise it returns the first [n]
    characters followed by three dots, so the result has [n + 3]
    characters: the bound on the result is [n + 3], not [n]. *)
Theorem truncation_bound (content : string) (n : nat) :
  String.length (truncateContent content n) <= n + 3
  /\ (String.length content <= n -> truncateContent content n = content)
  /\ (n < String.length content ->
      String.length (truncateContent content n) = n + 3
      /\ String.prefix (String.substring 0 n content) (truncateContent content n) = true).
Proof.
  split; [apply truncateContent_length|]. split.
  - intros H. unfold truncateContent. apply Nat.leb_le in H. rewrite H. reflexivity.
  - intros H. unfold truncateContent.
    destruct (Nat.leb_spec (String.length content) n) as [H'|_]; [lia|]. split.
    + rewrite string_length_append, string_length_substring. cbn. lia.
    + apply prefix_correct, substring_append_prefix.
Qed.

(** The collecting loops. *)
Lemma collect_fold {A} (test : A -> bool) (f : A -> string) (l : list A) acc :
  fold_left (fun acc x => if test x then acc ++ [f x] else acc) l acc
  = acc ++ map f (List.filter test l).
Proof.
  revert acc. induction l as [|x l IH]; intros acc; cbn.
  - rewrite app_nil_r. reflexivity.
  - rewrite IH. destruct (test x); cbn; [rewrite <- app_assoc|]; reflexivity.
Qed.

Lemma extractCodeChanges_eq msgs :
  extractCodeChanges msgs
  = take 5 (map (fun m => truncateContent (str_or (msg_text m) "") 100)
                (List.filter is_code_change msgs)).
Proof. unfold extractCodeChanges. rewrite collect_fold. reflexivity. Qed.

Lemma extractDecisions_eq msgs :
  extractDecisions toLowerCase msgs
  = take 3 (map (fun m => truncateContent (msg_words m) 100)
                (List.filter (is_decision toLowerCase) msgs)).
Proof. unfold extractDecisions. rewrite collect_fold. reflexivity. Qed.

Lemma extractNextSteps_eq msgs :
  extractNextSteps toLowerCase msgs
  = take 3 (map (fun m => truncateContent (msg_words m) 100)
                (List.filter (is_next_step toLowerCase) (slice_last 5 msgs))).
Proof. unfold extractNextSteps. rewrite collect_fold. reflexivity. Qed.

Lemma In_take {A} (x : A) n l : In x (take n l) -> In x l.
Proof.
  revert n. induction l as [|y l IH]; intros [|n]; cbn; try tauto.
  intros [H|H]; [left; exact H|right; eapply IH; exact H].
Qed.

Lemma truncated_entries n (f : ClineMessage -> string) l x :
  In x (take n (map (fun m => truncateContent (f m) 100) l)) ->
  String.length x <= 103.
Proof.
  intros H. apply In_take, in_map_iff in H as (m & <- & _).
  apply (truncateContent_length (f m) 100).
Qed.

(** X22. The lists of a summary are bounded whatever the conversation:
    at most 5 code changes, 3 decisions and 3 next steps, each entry of
    at most 103 characters. *)
Theorem summary_lists_are_bounded (msgs : list ClineMessage) :
  length (extractCodeChanges msgs) <= 5
  /\ length (extractDecisions toLowerCase msgs) <= 3
  /\ length (extractNextSteps toLowerCase msgs) <= 3
  /\ forall x,
       In x (extractCodeChanges msgs ++ extractDecisions toLowerCase msgs
             ++ extractNextSteps toLowerCase msgs) ->
       String.length x <= 103.
Proof.
  rewrite extractCodeChanges_eq, extractDecisions_eq, extractNextSteps_eq.
  repeat split; try (rewrite length_take; lia).
  intros x H. apply in_app_or in H as [H|H]; [|apply in_app_or in H as [H|H]];
    eapply truncated_entries; exact H.
Qed.

Lemma slice_last_app {A} (pre l : list A) n :
  n <= length l -> slice_last n (pre ++ l) = slice_last n l.
Proof.
  intros H. unfold slice_last. rewrite length_app.
  replace (length pre + length l - n) with (length pre + (length l - n)) by lia.
  rewrite drop_app_add'; [reflexivity|reflexivity].
Qed.

(** X23. The next steps depend on the last five messages only:
    whatever precedes them does not change the result. *)
Theorem next_steps_read_last_five (pre l : list ClineMessage) :
  5 <= length l ->
  extractNextSteps toLowerCase (pre ++ l) = extractNextSteps toLowerCase l.
Proof. intros H. unfold extractNextSteps. rewrite slice_last_app by exact H. reflexivity. Qed.

Lemma take_app_full {A} n (l more : list A) :
  n <= length l -> take n (l ++ more) = take n l.
Proof. intros H. rewrite take_app_le by exact H. reflexivity. Qed.

(** X24. Code changes and decisions keep the oldest matches: once a
    conversation has given 5 code changes (3 decisions), no later
    message changes that list. *)
Theorem first_matches_win (msgs more : list ClineMessage) :
  (length (extractCodeChanges msgs) = 5 ->
   extractCodeChanges (msgs ++ more) = extractCodeChanges msgs)
  /\ (length (extractDecisions toLowerCase msgs) = 3 ->
      extractDecisions toLowerCase (msgs ++ more) = extractDecisions toLowerCase msgs).
Proof.
  rewrite !extractCodeChanges_eq, !extractDecisions_eq.
  rewrite !List.filter_app, !map_app. split; intros H;
    rewrite length_take in H; apply take_app_full; lia.
Qed.

(** Topics. *)
Lemma Set_add_spec x set :
  NoDup set -> NoDup (Set_add x set) /\ (forall y, In y (Set_add x set) <-> y = x \/ In y set).
Proof.
  intros Hnd. unfold Set_add. destruct (existsb (String.eqb x) set) eqn:E.
  - split; [exact Hnd|]. intros y. split; [tauto|]. intros [->|H]; [|exact H].
    apply existsb_exists in E as (z & Hz & Heq). apply String.eqb_eq in Heq. subst. exact Hz.
  - split.
    + apply NoDup_app. split; [exact Hnd|]. split; [|apply NoDup_singleton].
      intros y Hy Hy'. apply list_elem_of_singleton in Hy'. subst y.
      assert (existsb (String.eqb x) set = true); [|congruence].
      apply existsb_exists. exists x. split; [apply list_elem_of_In; exact Hy|apply String.eqb_refl].
    + intros y. rewrite in_app_iff. cbn. intuition.
Qed.

Lemma cond_add (b : bool) x set :
  NoDup set /\ incl set TOPIC_LABELS ->
  In x TOPIC_LABELS ->
  NoDup (if b then Set_add x set else set)
  /\ incl (if b then Set_add x set else set) TOPIC_LABELS.
Proof.
  intros [Hnd Hincl] Hx. destruct b; [|tauto].
  destruct (Set_add_spec x set Hnd) as [H1 H2]. split; [exact H1|].
  intros y Hy. apply H2 in Hy as [->|Hy]; [exact Hx|apply Hincl, Hy].
Qed.

Lemma addTopics_inv topics msg :
  NoDup topics /\ incl topics TOPIC_LABELS ->
  NoDup (addTopics toLowerCase topics msg)
  /\ incl (addTopics toLowerCase topics msg) TOPIC_LABELS.
Proof.
  intros H. unfold addTopics. cbv zeta.
  repeat (apply cond_add; [|cbn; tauto]). exact H.
Qed.

Lemma extractKeyTopics_inv msgs acc :
  NoDup acc /\ incl acc TOPIC_LABELS ->
  NoDup (fold_left (addTopics toLowerCase) msgs acc)
  /\ incl (fold_left (addTopics toLowerCase) msgs acc) TOPIC_LABELS.
Proof.
  revert acc. induction msgs as [|m msgs IH]; intros acc H; cbn; [exact H|].
  apply IH, addTopics_inv, H.
Qed.

(** X25. The key topics are distinct labels out of the seven the
    function knows, so there are at most seven of them. *)
Theorem key_topics_are_distinct_labels (msgs : list ClineMessage) :
  List.NoDup (extractKeyTopics toLowerCase msgs)
  /\ incl (extractKeyTopics toLowerCase msgs) TOPIC_LABELS
  /\ length (extractKeyTopics toLowerCase msgs) <= 7.
Proof.
  destruct (extractKeyTopics_inv msgs []) as [Hnd Hincl].
  { split; [constructor|intros x []]. }
  apply NoDup_ListNoDup in Hnd.
  split; [exact Hnd|]. split; [exact Hincl|].
  apply (List.NoDup_incl_length Hnd Hincl).
Qed.
End SummaryFacts.

Lemma truncation_bound_witness :
  String.length (truncateContent long_text 100) = 103
  /\ truncateContent "plain" 100 = "plain".
Proof.
  destruct (truncation_bound long_text 100) as (_ & _ & Hlong).
  destruct (truncation_bound "plain" 100) as (_ & Hshort & _).
  split; [apply Hlong; vm_compute; lia|apply Hshort; vm_compute; lia].
Defined.

Lemma summary_lists_are_bounded_witness :
  String.length (truncateContent long_text 100) <= 103.
Proof.
  destruct (summary_lists_are_bounded lower five_changes) as (_ & _ & _ & H).
  apply H. vm_compute. do 2 right. left. reflexivity.
Defined.

Lemma next_steps_read_last_five_witness :
  extractNextSteps lower (ask "TODO: an older message" :: chat)
  = extractNextSteps lower chat.
Proof.
  apply (next_steps_read_last_five lower [ask "TODO: an older message"] chat).
  vm_compute. lia.
Defined.

Lemma first_matches_win_witness :
  extractCodeChanges (five_changes ++ [ask "one more file"])
  = extractCodeChanges five_changes.
Proof.
  apply (proj1 (first_matches_win lower five_changes [ask "one more file"])).
  vm_compute. reflexivity.
Defined.

(** ** EnvConfig *)

Section EnvConfigFacts.
Implicit Types (src : EnvSource) (p : option string)
  (config : option (gmap string string)).

Lemma EnvConfig_load_Some src p config :
  exists c, EnvConfig_load src p config = (c, Some c).
Proof. destruct config as [c|]; cbn -[set_opt]; eauto. Qed.

(** X26. [EnvConfig] answers from its cache: once any accessor has
    loaded the configuration, every later call returns what the first
    load found, whatever [extensionPath] it is given and whatever the
    [.env] file and [process.env] hold by then. *)
Theorem first_load_is_cached src p config src' p' :
  let config1 := snd (EnvConfig_load src p config) in
  EnvConfig_load src' p' config1 = EnvConfig_load src p config
  /\ isConfigured src' p' config1 = isConfigured src p config
  /\ getGroqApiKey src' p' config1 = getGroqApiKey src p config
  /\ getGroqModelId src' p' config1 = getGroqModelId src p config.
Proof.
  unfold isConfigured, getGroqApiKey, getGroqModelId.
  destruct (EnvConfig_load_Some src p config) as (c & ->).
  cbn. repeat split.
Qed.

Lemma config_assign_other (kv : string * string) k (c : gmap string string) :
  fst kv <> k -> config_assign c kv !! k = c !! k.
Proof.
  intros H. unfold config_assign. destruct (String.eqb (fst kv) "__proto__"); [reflexivity|].
  apply lookup_insert_ne. exact H.
Qed.

Lemma fold_assign_absent (l : list (string * string)) k : forall c : gmap string string,
  ~ In k (map fst l) -> fold_left config_assign l c !! k = c !! k.
Proof.
  induction l as [|kv l IH]; intros c H; cbn [fold_left]; [reflexivity|].
  rewrite IH by (intros Hin; apply H; right; exact Hin).
  apply config_assign_other. intros Heq. apply H. left. exact Heq.
Qed.

Lemma fold_assign_last (pre post : list (string * string)) k v (c : gmap string string) :
  k <> "__proto__" ->
  ~ In k (map fst post) ->
  fold_left config_assign (pre ++ (k, v) :: post) c !! k = Some v.
Proof.
  intros Hk Hpost. rewrite fold_left_app. cbn [fold_left].
  rewrite fold_assign_absent by exact Hpost.
  unfold config_assign at 1. cbn [fst snd].
  apply String.eqb_neq in Hk. rewrite Hk. apply lookup_insert_eq.
Qed.

Lemma set_opt_lookup k (v : option string) (c : gmap string string) :
  set_opt k v c !! k = v.
Proof. destruct v; cbn; [apply lookup_insert_eq|apply lookup_delete_eq]. Qed.

Lemma load_key src p :
  forall c0,
  c0 = (if str_truthy p then
          match dotenv src (str_or p "") with
          | Some assignments => fold_left config_assign assignments (∅ : gmap string string)
          | None => ∅
          end
        else ∅) ->
  fst (EnvConfig_load src p None) !! GROQ_API_KEY
  = opt_or (c0 !! GROQ_API_KEY) (groq_process_env src !! GROQ_API_KEY).
Proof.
  intros c0 ->. cbn -[set_opt str_truthy str_or config_assign].
  rewrite lookup_insert_ne by discriminate. apply set_opt_lookup.
Qed.

Lemma load_key_without_file src p :
  str_truthy p = false \/ dotenv src (str_or p "") = None ->
  fst (EnvConfig_load src p None) !! GROQ_API_KEY = groq_process_env src !! GROQ_API_KEY.
Proof.
  intros Hp. erewrite load_key by reflexivity.
  assert (E : (if str_truthy p then
                 match dotenv src (str_or p "") with
                 | Some assignments =>
                     fold_left config_assign assignments (∅ : gmap string string)
                 | None => ∅
                 end
               else ∅) = ∅).
  { destruct Hp as [-> | ->]; [reflexivity|]. destruct (str_truthy p); reflexivity. }
  rewrite E, lookup_empty. reflexivity.
Qed.

(** What the file leaves under the key decides the lookup. *)
Lemma load_key_with_file src path l :
  dotenv src path = Some l ->
  fst (EnvConfig_load src (Some path) None) !! GROQ_API_KEY
  = if String.eqb path "" then groq_process_env src !! GROQ_API_KEY
    else opt_or (fold_left config_assign l (∅ : gmap string string) !! GROQ_API_KEY)
                (groq_process_env src !! GROQ_API_KEY).
Proof.
  intros Hfile. erewrite load_key by reflexivity.
  cbn [str_truthy str_or]. destruct (String.eqb path "") eqn:E; cbn [negb].
  - rewrite lookup_empty. reflexivity.
  - rewrite Hfile. reflexivity.
Qed.

Lemma key_of_lookup src p src' p' :
  fst (EnvConfig_load src p None) !! GROQ_API_KEY
  = fst (EnvConfig_load src' p' None) !! GROQ_API_KEY ->
  fst (getGroqApiKey src p None) = fst (getGroqApiKey src' p' None).
Proof.
  unfold getGroqApiKey.
  destruct (EnvConfig_load src p None) as [c config1].
  destruct (EnvConfig_load src' p' None) as [c' config1'].
  cbn [fst]. intros ->.
  destruct (negb (str_truthy (c' !! GROQ_API_KEY))); reflexivity.
Qed.

Lemma key_of_lookup_value src p o :
  fst (EnvConfig_load src p None) !! GROQ_API_KEY = o ->
  fst (getGroqApiKey src p None)
  = if negb (str_truthy o) then inr NO_GROQ_KEY else inl (str_or o "").
Proof.
  intros <-. unfold getGroqApiKey.
  destruct (EnvConfig_load src p None) as [c config1]. cbn [fst].
  destruct (negb (str_truthy (c !! GROQ_API_KEY))); reflexivity.
Qed.

(** X27. Where the Groq key comes from on a first load.  The last
    [GROQ_API_KEY] assignment of the [.env] file decides: when its value
    is not empty, that value is the key; when it is empty, or when the
    file assigns no such key, the result is the one obtained without a
    file.  Without a file the key of [process.env] is used when it is
    not empty, and otherwise [getGroqApiKey] raises its configuration
    error: there is no bundled fallback.  [isConfigured] answers [true]
    exactly when [getGroqApiKey] returns a key, and [getGroqModelId]
    never returns the empty string. *)
Theorem groq_key_resolution src p :
  (forall path pre post v,
     p = Some path -> path <> "" ->
     dotenv src path = Some (pre ++ (GROQ_API_KEY, v) :: post) ->
     ~ In GROQ_API_KEY (map fst post) ->
     (v <> "" -> fst (getGroqApiKey src p None) = inl v)
     /\ (v = "" -> fst (getGroqApiKey src p None) = fst (getGroqApiKey src None None)))
  /\ (forall path l,
        p = Some path ->
        dotenv src path = Some l ->
        ~ In GROQ_API_KEY (map fst l) ->
        fst (getGroqApiKey src p None) = fst (getGroqApiKey src None None))
  /\ (str_truthy p = false \/ dotenv src (str_or p "") = None ->
      (forall v, groq_process_env src !! GROQ_API_KEY = Some v -> v <> "" ->
                 fst (getGroqApiKey src p None) = inl v)
      /\ (str_truthy (groq_process_env src !! GROQ_API_KEY) = false ->
          fst (getGroqApiKey src p None) = inr NO_GROQ_KEY))
  /\ (forall config,
        fst (isConfigured src p config) = true
        <-> exists k, fst (getGroqApiKey src p config) = inl k)
  /\ (forall config, fst (getGroqModelId src p config) <> "").
Proof.
  pose proof (load_key_without_file src None (or_introl eq_refl)) as Hnone.
  split; [|split; [|split; [|split]]].
  - intros path pre post v -> Hne Hfile Hpost.
    pose proof (load_key_with_file src path _ Hfile) as Hload.
    apply String.eqb_neq in Hne. rewrite Hne in Hload.
    rewrite fold_assign_last in Hload by (discriminate || exact Hpost).
    split.
    + intros Hv. apply String.eqb_neq in Hv.
      rewrite (key_of_lookup_value src (Some path) (Some v)).
      * cbn. rewrite Hv. reflexivity.
      * rewrite Hload. unfold opt_or. cbn. rewrite Hv. reflexivity.
    + intros ->. apply key_of_lookup. rewrite Hload, Hnone. reflexivity.
  - intros path l -> Hfile Habsent.
    apply key_of_lookup. rewrite (load_key_with_file src path _ Hfile), Hnone.
    rewrite fold_assign_absent by exact Habsent. rewrite lookup_empty.
    destruct (String.eqb path ""); reflexivity.
  - intros Hp. pose proof (load_key_without_file src p Hp) as Hload. split.
    + intros v Hv Hne. apply String.eqb_neq in Hne.
      rewrite (key_of_lookup_value src p (Some v)); [cbn; rewrite Hne; reflexivity|].
      rewrite Hload. exact Hv.
    + intros Hv. rewrite (key_of_lookup_value src p _ Hload). rewrite Hv. reflexivity.
  - intros config. unfold isConfigured, getGroqApiKey.
    destruct (EnvConfig_load src p config) as [c config']. cbn [fst].
    destruct (str_truthy (c !! GROQ_API_KEY)); cbn; split; eauto; try discriminate.
    intros (k & Hk). discriminate.
  - intros config. unfold getGroqModelId.
    destruct (EnvConfig_load src p config) as [c config']. cbn [fst].
    destruct (c !! GROQ_MODEL_ID) as [m|]; cbn; [|discriminate].
    destruct (String.eqb_spec m ""); [discriminate|assumption].
Qed.
End EnvConfigFacts.

Lemma groq_key_resolution_witness :
  fst (getGroqApiKey env_file_source (Some "/ext") None) = inl "gsk_file"
  /\ fst (getGroqApiKey emptied_key_source (Some "/ext") None) = inl "gsk_env"
  /\ fst (getGroqApiKey process_env_source (Some "/ext") None) = inl "gsk_env"
  /\ fst (getGroqApiKey env_file_source None None) = inr NO_GROQ_KEY.
Proof.
  split; [|split; [|split]].
  - apply (proj1 (groq_key_resolution env_file_source (Some "/ext")) "/ext" [] [] "gsk_file");
      try reflexivity; try discriminate. intros [].
  - rewrite (proj2 (proj1 (groq_key_resolution emptied_key_source (Some "/ext"))
                      "/ext" [("GROQ_API_KEY", "gsk_file")] [] ""
                      eq_refl ltac:(discriminate) eq_refl ltac:(intros [])) eq_refl).
    apply (proj1 (proj1 (proj2 (proj2 (groq_key_resolution emptied_key_source None)))
                    (or_introl eq_refl)));
      [reflexivity|discriminate].
  - apply (proj1 (proj1 (proj2 (proj2 (groq_key_resolution process_env_source (Some "/ext"))))
                    (or_intror eq_refl)));
      [reflexivity|discriminate].
  - apply (proj2 (proj1 (proj2 (proj2 (groq_key_resolution env_file_source None)))
                    (or_introl eq_refl))).
    reflexivity.
Defined.
